(** * lab: the revision build cache and the fetcher

    A shallow embedding of [downward/cached_revision.py] and
    [lab/fetcher.py].  Both modules are scripts over the file system: they
    test paths, create and remove directories, start external programs and
    end the process through [logging.critical].  The embedding makes that
    explicit: a computation is a function from a [World] (the directory
    tree plus the chronological record of everything the process did) to a
    result or an exception and the world it leaves behind. *)

From Stdlib Require Import Ascii.
From stdpp Require Import gmap strings list sorting pretty.

#[local] Set Warnings "-register-all".
#[local] Open Scope string_scope.
#[local] Open Scope list_scope.
#[local] Open Scope nat_scope.

(** ** Python values

    The values a [properties] file can hold once parsed (JSON): [None],
    booleans, integers, strings, lists and dictionaries.  Floats are left
    out; no function below computes with numbers. *)

Inductive pyval :=
| VNone
| VBool (b : bool)
| VNum (z : Z)
| VStr (s : string)
| VList (l : list pyval)
| VDict (d : gmap string pyval).

(** A Python [dict] with string keys; [tools.Properties] is a subclass of
    [dict], so run properties and whole property stores share this type. *)
Abbreviation pydict := (gmap string pyval).

(** Python truthiness, as used by [if error and ...]. *)
Definition truthy (v : pyval) : bool :=
  match v with
  | VNone => false
  | VBool b => b
  | VNum z => negb (z =? 0)%Z
  | VStr s => negb (String.eqb s "")
  | VList l => match l with [] => false | _ => true end
  | VDict d => negb (bool_decide (d = ∅))
  end.

(** ** Strings and paths *)

(** [s.startswith(pre)] and [s.endswith(suf)]. *)
Definition startswith (s pre : string) : bool := String.prefix pre s.
Fixpoint endswith (s suf : string) : bool :=
  String.eqb s suf ||
  match s with
  | "" => false
  | String _ s' => endswith s' suf
  end.

(** The double quote, as a string. *)
Definition dquote : string := String "034"%char "".

(** [sep.join(l)] for a list of strings. *)
Definition str_join (sep : string) (l : list string) : string :=
  String.concat sep l.

(** The separator [posixpath.join] puts between [path] and the next
    component: none after the empty path or a trailing slash. *)
Definition dirsep (path : string) : string :=
  if String.eqb path "" || endswith path "/" then "" else "/".

(** One step of [os.path.join]: an absolute component discards what came
    before it. *)
Definition os_path_join2 (path b : string) : string :=
  if startswith b "/" then b else path +:+ dirsep path +:+ b.

(** [os.path.join(a, *p)]. *)
Definition os_path_join (a : string) (p : list string) : string :=
  foldl os_path_join2 a p.
Arguments os_path_join : simpl never.

(** [q] is the path [p] itself or lies below the directory [p]. *)
Definition within (p q : string) : bool :=
  String.eqb q p || startswith q (p +:+ dirsep p).

(** ** The world *)

(** A directory entry: a directory, or a file.  The only file contents the
    code reads are property files, so a file carries the JSON value it
    parses to, or [None] when it holds anything else. *)
Inductive node :=
| Dir
| File (data : option pyval).

Abbreviation FS := (gmap string node).

Inductive level := DEBUG | INFO | WARNING | CRITICAL.

(** What the process does, in the order it does it. *)
Inductive event :=
| Log (lvl : level) (msg : string) (args : list pyval)
| Exec (cmd : list string) (cwd : option string) (retcode : Z)
| MakeDirs (path : string)
| Touch (path : string)
| RmTree (path : string)
| RemovePath (path : string)
| WriteProperties (path : string) (content : pydict)
| Prompt (question answer : string).

(** The directory tree now, and every event so far together with the tree
    as it was right after the event. *)
Record World := mkWorld {
  fs : FS;
  trace : list (event * FS)
}.

(** The events of a world, without the snapshots. *)
Definition events (w : World) : list event := (trace w).*1.

(** The exceptions that can end a call. [SystemExit] is the process exit
    behind [logging.critical]. *)
Inductive exn :=
| SystemExit
| AssertionError
| OSError
| KeyError (key : string)
| AttributeError
| TypeError.

Inductive res (A : Type) :=
| Ok (a : A)
| Raise (e : exn).
Arguments Ok {A} a.
Arguments Raise {A} e.

(** A computation of the embedded program. *)
Definition M (A : Type) : Type := World → res A * World.

Definition ret {A} (a : A) : M A := λ w, (Ok a, w).
Definition raise {A} (e : exn) : M A := λ w, (Raise e, w).
Definition bind {A B} (c : M A) (k : A → M B) : M B :=
  λ w, match c w with
       | (Ok a, w') => k a w'
       | (Raise e, w') => (Raise e, w')
       end.

Notation "'let!' x ':=' c 'in' k" := (bind c (λ x, k))
  (at level 10, x name, c at level 100, k at level 200).
Notation "c ';;;' k" := (bind c (λ _, k))
  (at level 100, k at level 200, right associativity).

(** Run the statement only when the test holds. *)
Definition when (b : bool) (c : M ()) : M () := if b then c else ret ().

(** Record an event that changes the tree by [f]. *)
Definition emit (e : event) (f : FS → FS) : M () :=
  λ w, let fs' := f (fs w) in
       (Ok (), {| fs := fs'; trace := trace w ++ [(e, fs')] |}).

(** [for x in l: body(x)]. *)
Fixpoint for_each {A} (l : list A) (body : A → M ()) : M () :=
  match l with
  | [] => ret ()
  | x :: l' => body x ;;; for_each l' body
  end.

(** ** Library calls *)

(** [os.path.exists] and [os.path.isdir]. *)
Definition os_path_exists (p : string) : M bool :=
  λ w, (Ok (bool_decide (is_Some (fs w !! p))), w).
Definition os_path_isdir (p : string) : M bool :=
  λ w, (Ok (match fs w !! p with Some Dir => true | _ => false end), w).

Definition logging_log (lvl : level) (msg : string) (args : list pyval) : M () :=
  emit (Log lvl msg args) id.
Definition logging_info (msg : string) : M () := logging_log INFO msg [].

(** Modelled from the spec: the handler [lab.tools] installs on the root logger
    belongs to lab/tools.py, which is not among the embedded files. Under it a
    message of level CRITICAL is fatal: it is logged and the process exits (the
    spec's fatal severity, "process-terminating"; the callers rely on it, see
    the comment "Abort for cancel and invalid answers" in the fetcher). *)
Definition logging_critical_fmt {A} (msg : string) (args : list pyval) : M A :=
  emit (Log CRITICAL msg args) id ;;; raise SystemExit.
Definition logging_critical {A} (msg : string) : M A :=
  logging_critical_fmt msg [].

(** The tree without [p] and everything below it. *)
Definition remove_tree (p : string) (t : FS) : FS :=
  filter (λ kv, within p kv.1 = false) t.

(** [shutil.rmtree(p)]: fails on a path that does not exist. *)
Definition shutil_rmtree (p : string) : M () :=
  let! e := os_path_exists p in
  if e then emit (RmTree p) (remove_tree p) else raise OSError.

(** Modelled from the spec: [tools.makedirs] belongs to lab/tools.py, which is
    not among the embedded files; it creates the directory ("create it",
    "creating the destination directory if needed") and leaves an existing entry
    alone. *)
Definition tools_makedirs (p : string) : M () :=
  emit (MakeDirs p) (λ t, match t !! p with Some _ => t | None => <[p := Dir]> t end).

(** Modelled from the spec: [tools.touch] belongs to lab/tools.py, which is not
    among the embedded files; it writes the marker file: an empty file when the
    path is free. *)
Definition tools_touch (p : string) : M () :=
  emit (Touch p) (λ t, match t !! p with Some _ => t | None => <[p := File None]> t end).

(** Modelled from the spec: [tools.remove_path] belongs to lab/tools.py, which
    is not among the embedded files; it deletes a file or a whole subtree, and a
    path that is already gone is not an error (clean-up is best effort). *)
Definition tools_remove_path (p : string) : M () :=
  emit (RemovePath p) (remove_tree p).

(** [os.path.basename]: what follows the last slash. *)
Fixpoint has_slash (s : string) : bool :=
  match s with
  | "" => false
  | String c s' => Ascii.eqb c "/"%char || has_slash s'
  end.
Fixpoint os_path_basename (s : string) : string :=
  match s with
  | "" => ""
  | String c s' => if has_slash s then os_path_basename s' else s
  end.

(** Shell-style matching for [glob.glob], for patterns whose only magic
    character is the star: a star stands for any run of characters other
    than the slash, and at the start of a path component it does not match
    a name that begins with a dot.  [start] tells whether the position is
    the start of a component. *)
Fixpoint glob_match (pat : string) : bool → string → bool :=
  match pat with
  | "" => λ _ s, match s with "" => true | _ => false end
  | String p pat' =>
      if Ascii.eqb p "*"%char then
        λ start s,
          if start && startswith s "." then false
          else (fix star (s : string) : bool :=
                  glob_match pat' false s ||
                  match s with
                  | "" => false
                  | String c s' => negb (Ascii.eqb c "/"%char) && star s'
                  end) s
      else
        λ _ s,
          match s with
          | "" => false
          | String c s' => Ascii.eqb c p && glob_match pat' (Ascii.eqb p "/"%char) s'
          end
  end.

(** [glob.glob(pattern)]: the existing paths that match. *)
Definition glob_glob (pattern : string) : M (list string) :=
  λ w, (Ok (filter (λ q, glob_match pattern true q = true) (map_to_list (fs w)).*1), w).

(** ** What the embedding leaves open

    The programs started as subprocesses ([hg], [build.py], [strip], [tar],
    [xz], the parsers) may change the tree in any way and return any exit
    code; the user may answer the prompt with anything; Python 2 lists the
    entries of a [dict] in an order of its own.  All of that is a parameter
    of the embedding. *)
Class Env := {
  (** the program [cmd] run in directory [cwd]: exit code and new tree *)
  subprocess : list string → option string → FS → Z * FS;
  (** the line the user types at a prompt *)
  raw_input : string → string;
  (** [os.path.relpath(path, start)], which depends on the working directory *)
  os_path_relpath : string → string → string;
  (** the order in which a [dict] lists its items *)
  dict_items : pydict → list (string * pyval);
  dict_items_perm : ∀ d, dict_items d ≡ₚ map_to_list d;
  (** what loading a property file that does not parse gives:
      [tools.Properties] belongs to lab/tools.py, which is not among the
      embedded files, and the spec does not settle it *)
  properties_malformed : string → res pydict
}.

(** [subprocess.call(cmd, cwd=cwd)]: returns the exit code. *)
Definition subprocess_call `{E : Env} (cmd : list string) (cwd : option string) : M Z :=
  λ w, let r := subprocess cmd cwd (fs w) in
       (Ok r.1, {| fs := r.2; trace := trace w ++ [(Exec cmd cwd r.1, r.2)] |}).

(** Modelled from the spec: [tools.run_command] belongs to lab/tools.py, which
    is not among the embedded files; it runs the external command and returns
    its exit code. *)
Definition tools_run_command `{E : Env} (cmd : list string) (cwd : string) : M Z :=
  subprocess_call cmd (Some cwd).

(** ** downward/cached_revision.py *)

Module CachedRevision.

(** The attributes [__init__] sets. *)
Record t := mk {
  repo : string;
  build_options : list string;
  local_rev : string;
  global_rev : string;
  summary : string;
  _path : option string
}.

(** The [path] property: [assert self._path is not None]. *)
Definition path (self : t) : M string :=
  match _path self with
  | Some p => ret p
  | None => raise AssertionError
  end.

(** [__init__]. The two functions of [downward.checkouts], which ask the
    repository for the global revision and for the summary of a local
    revision, are arguments: the module is not among the embedded files. *)
Definition __init__ (get_global_rev get_rev_id : string → string → M string)
    (repo local_rev : string) (build_options : list string) : M t :=
  let! isdir := os_path_isdir repo in
  when (negb isdir)
    (logging_critical (repo +:+ " is not a local Fast Downward repository.")) ;;;
  let! global_rev := get_global_rev repo local_rev in
  let! summary := get_rev_id repo local_rev in
  ret (mk repo build_options local_rev global_rev summary None).

Definition _get_cached_revision_name (self : t) : string :=
  str_join "-" ([global_rev self] ++ build_options self).

Definition get_cached_path (self : t) (rel_path : list string) : M string :=
  let! p := path self in ret (os_path_join p rel_path).

Definition get_exp_path (self : t) (rel_path : list string) : string :=
  os_path_join ("code-" +:+ global_rev self) rel_path.

(** The two messages of [cache] about an entry that exists. *)
Definition already_cached (p : string) : string :=
  "Revision is already cached: " +:+ dquote +:+ p +:+ dquote.
Definition corrupted (p : string) : string :=
  "The build for the cached revision at " +:+ p +:+
  " is corrupted or was made with an older lab version. " +:+
  "Please delete it and try again.".

Definition _get_sentinel_file (self : t) : M string :=
  get_cached_path self ["build_successful"].

Definition _compile `{E : Env} (self : t) : M () :=
  let! p := path self in
  let! found := os_path_exists (os_path_join p ["build.py"]) in
  when (negb found)
    (logging_critical "build.py not found. Please merge with master.") ;;;
  let! p := path self in
  let! retcode := tools_run_command (["./build.py"] ++ build_options self) p in
  if (retcode =? 0)%Z then
    let! sentinel := _get_sentinel_file self in
    tools_touch sentinel
  else
    let! p := path self in
    logging_critical ("Build failed in " +:+ p).

Definition _cleanup `{E : Env} (self : t) : M () :=
  (* Only keep the bin directories in "builds" dir. *)
  let! p := path self in
  let! paths := glob_glob (os_path_join p ["builds"; "*"; "*"]) in
  for_each paths (λ q,
    when (negb (String.eqb (os_path_basename q) "bin")) (tools_remove_path q)) ;;;
  (* Remove unneeded files. *)
  let! build_py := get_cached_path self ["build.py"] in
  tools_remove_path build_py ;;;
  (* Strip binaries. *)
  let! p := path self in
  let! paths := glob_glob (os_path_join p ["builds"; "*"; "bin"; "*"]) in
  let binaries :=
    filter (λ q, os_path_basename q ∈ ["downward"; "preprocess"]) paths in
  subprocess_call (["strip"] ++ binaries) None ;;;
  (* Compress src directory. *)
  let! p := path self in
  subprocess_call ["tar"; "-cf"; "src.tar"; "--remove-files"; "src"] (Some p) ;;;
  let! p := path self in
  subprocess_call ["xz"; "src.tar"] (Some p) ;;;
  ret ().

(** [cache] stores the target directory in [self._path]; the object as
    the call leaves it is the result. *)
Definition cache `{E : Env} (self : t) (revision_cache_dir : string) : M t :=
  let self := mk (repo self) (build_options self) (local_rev self)
                 (global_rev self) (summary self)
                 (Some (os_path_join revision_cache_dir
                                     [_get_cached_revision_name self])) in
  let! p := path self in
  let! cached := os_path_exists p in
  (if cached then
     let! p := path self in
     logging_info (already_cached p) ;;;
     let! sentinel := _get_sentinel_file self in
     let! marked := os_path_exists sentinel in
     when (negb marked)
       (let! p := path self in
        logging_critical (corrupted p))
   else
     let! p := path self in
     tools_makedirs p ;;;
     let excludes := (λ d, "-X" +:+ d) <$> ["benchmarks"; "experiments"; "misc"] in
     let! p := path self in
     let! retcode :=
       tools_run_command
         (["hg"; "archive"; "-r"; global_rev self] ++ excludes ++ [p])
         (repo self) in
     when (negb (retcode =? 0)%Z)
       (let! p := path self in
        shutil_rmtree p ;;;
        logging_critical "Failed to make checkout.") ;;;
     _compile self ;;;
     _cleanup self) ;;;
  ret self.

End CachedRevision.

(** ** lab/fetcher.py *)

(** [s.strip()], [s.lower()] and [s.rstrip(c)]. *)
Fixpoint lstrip (s : string) : string :=
  match s with
  | String c s' => if Ascii.is_space c then lstrip s' else s
  | "" => ""
  end.
Definition str_strip (s : string) : string :=
  String.rev (lstrip (String.rev (lstrip s))).
Definition ascii_lower (c : ascii) : ascii :=
  let n := nat_of_ascii c in
  if (65 <=? n) && (n <=? 90) then ascii_of_nat (n + 32) else c.
Fixpoint str_lower (s : string) : string :=
  match s with
  | String c s' => String (ascii_lower c) (str_lower s')
  | "" => ""
  end.
Fixpoint lstrip_char (c : ascii) (s : string) : string :=
  match s with
  | String c' s' => if Ascii.eqb c' c then lstrip_char c s' else s
  | "" => ""
  end.
Definition str_rstrip (s : string) (c : ascii) : string :=
  String.rev (lstrip_char c (String.rev s)).

(** The characters of a string, each as a string: what iterating over a
    [str] yields. *)
Fixpoint str_chars (s : string) : list string :=
  match s with
  | String c s' => String c "" :: str_chars s'
  | "" => []
  end.

(** [sep.join(v)] for any value [v]: every item must be a string. *)
Definition py_join `{E : Env} (sep : string) (v : pyval) : res string :=
  let join_items (items : list pyval) : res string :=
    match mapM (λ x, match x with VStr s => Some s | _ => None end) items with
    | Some strs => Ok (str_join sep strs)
    | None => Raise TypeError
    end in
  match v with
  | VList l => join_items l
  | VStr s => Ok (str_join sep (str_chars s))
  | VDict d => Ok (str_join sep (dict_items d).*1)
  | VNone | VBool _ | VNum _ => Raise TypeError
  end.

(** A pure result as a computation. *)
Definition lift {A} (r : res A) : M A := λ w, (r, w).

(** [for x in l: state = body(x, state)]. *)
Fixpoint for_fold {A S} (l : list A) (s : S) (body : A → S → M S) : M S :=
  match l with
  | [] => ret s
  | x :: l' => let! s' := body x s in for_fold l' s' body
  end.

(** Modelled from the spec: [tools.Properties] belongs to lab/tools.py, which is
    not among the embedded files. Loading gives the mapping stored in the file,
    and the empty mapping when there is no file name or no file ("empty mapping
    if none"). *)
Definition tools_Properties `{E : Env} (filename : option string) : M pydict :=
  match filename with
  | None => ret ∅
  | Some f =>
      λ w, match fs w !! f with
           | None => (Ok ∅, w)
           | Some (File (Some (VDict d))) => (Ok d, w)
           | Some _ => (properties_malformed f, w)
           end
  end.

(** Modelled from the spec: [Properties.write], part of lab/tools.py, which is
    not among the embedded files, stores the mapping in the file it was loaded
    from. *)
Definition Properties_write (filename : string) (d : pydict) : M () :=
  emit (WriteProperties filename d) (<[filename := File (Some (VDict d))]>).

(** [d.update(other)]: the entries of [other] win. *)
Definition dict_update (d other : pydict) : pydict := other ∪ d.

Module Fetcher.

Definition _check_eval_dir `{E : Env} (eval_dir : string) : M () :=
  let! present := os_path_exists eval_dir in
  when present
    (let question :=
       eval_dir +:+ " already exists. Do you want to (o)verwrite it, " +:+
       "(m)erge the results, or (c)ancel? " in
     let raw := raw_input question in
     emit (Prompt question raw) id ;;;
     let answer := str_lower (str_strip raw) in
     if String.eqb answer "o" then tools_remove_path eval_dir
     else if String.eqb answer "m" then ret ()
     else if String.eqb answer "c" then raise SystemExit
     else
       (* Abort for "cancel" and invalid answers. *)
       logging_critical ("Invalid answer: " +:+ dquote +:+ answer +:+ dquote)).

(** [parsers] is the list [tools.make_list(parsers or [])] gives. *)
Definition fetch_dir `{E : Env} (run_dir eval_dir : string) (parsers : list string)
  : M pydict :=
  let prop_file := os_path_join run_dir ["properties"] in
  for_each parsers (λ parser,
    let rel_parser := os_path_relpath parser run_dir in
    subprocess_call [rel_parser] (Some run_dir) ;;; ret ()) ;;;
  tools_Properties (Some prop_file).

(** The body of the loop over the run directories: [new_props] is the
    loop's state. *)
Definition scan_run `{E : Env} (eval_dir : string) (parsers : list string)
    (total_dirs : nat) (item : nat * string) (new_props : pydict) : M pydict :=
  let '(index, run_dir) := item in
  let loglevel := if (index mod 100 =? 0)%nat then INFO else DEBUG in
  logging_log loglevel "Scanning: {:6d}/{:d}"
    [VNum (Z.of_nat index); VNum (Z.of_nat total_dirs)] ;;;
  let! props := fetch_dir run_dir eval_dir parsers in
  let! id := lift (match props !! "id" with
                   | Some v => Ok v
                   | None => Raise (KeyError "id")
                   end) in
  let! id_string := lift (py_join "-" id) in
  ret (<[id_string := VDict props]> new_props).

(** The body of the loop over [combined_props.values()]: the counter is
    the loop's state. *)
Definition check_run (props : pyval) (unxeplained_errors : nat) : M nat :=
  match props with
  | VDict d =>
      let error :=
        default (VStr "unexplained:attribute-error-missing") (d !! "error") in
      if truthy error then
        match error with
        | VStr s =>
            if startswith s "unexplained" then
              let! run_dir := lift (match d !! "run_dir" with
                                    | Some v => Ok v
                                    | None => Raise (KeyError "run_dir")
                                    end) in
              logging_log WARNING
                "Unexplained error in {props[run_dir]}: {error}"
                [run_dir; error] ;;;
              ret (S unxeplained_errors)
            else ret unxeplained_errors
        | _ => raise AttributeError (* no [startswith] *)
        end
      else ret unxeplained_errors
  | _ => raise AttributeError (* no [get] *)
  end.

(** [__call__] is embedded block by block.  [merge] is [self.merge];
    [parsers] is as for [fetch_dir]. *)

(** The start of [__call__], up to the conflict policy: the source
    properties, whether the source is an evaluation directory, and the
    destination. *)
Definition prepare `{E : Env} (merge : option bool) (src_dir : string)
    (eval_dir : option string) : M (pydict * bool * string) :=
  let! isdir := os_path_isdir src_dir in
  when (negb isdir)
    (logging_critical (src_dir +:+ " is missing or not a directory")) ;;;
  let! src_props := tools_Properties (Some (os_path_join src_dir ["properties"])) in
  let fetch_from_eval_dir :=
    negb (bool_decide ("runs" ∈ dom src_props)) || endswith src_dir "-eval" in
  let eval_dir :=
    match eval_dir with
    | Some d => if String.eqb d "" then str_rstrip src_dir "/" +:+ "-eval" else d
    | None => str_rstrip src_dir "/" +:+ "-eval"
    end in
  logging_info ("Fetching files from " +:+ src_dir +:+ " -> " +:+ eval_dir) ;;;
  logging_log INFO "Fetching from evaluation dir: {}" [VBool fetch_from_eval_dir] ;;;
  match merge with
  | None => _check_eval_dir eval_dir
  | Some false => tools_remove_path eval_dir
  | Some true => ret ()
  end ;;;
  ret (src_props, fetch_from_eval_dir, eval_dir).

(** The [else] branch up to the end of its loop: the properties of all
    run directories, keyed by the joined [id]. *)
Definition collect `{E : Env} (src_dir eval_dir : string) (parsers : list string)
  : M pydict :=
  let! found := glob_glob (os_path_join src_dir ["runs-*-*"; "*"]) in
  let run_dirs := merge_sort String.le found in
  let total_dirs := length run_dirs in
  logging_log INFO "Scanning properties from {:d} run directories"
    [VNum (Z.of_nat total_dirs)] ;;;
  for_fold (zip (seq 1 total_dirs) run_dirs) ∅
           (scan_run eval_dir parsers total_dirs).

(** The end of [__call__], from the error count on. *)
Definition report `{E : Env} (eval_dir filename : string) (combined_props : pydict)
  : M () :=
  let! unxeplained_errors :=
    for_fold (dict_items combined_props).*2 0 check_run in
  tools_makedirs eval_dir ;;;
  Properties_write filename combined_props ;;;
  logging_info "Wrote properties file" ;;;
  when (negb (unxeplained_errors =? 0)%nat)
    (logging_critical_fmt "There were {} runs with unexplained errors."
       [VNum (Z.of_nat unxeplained_errors)]).

(** Everything before the error count: the destination and the merged
    store [combined_props].  [run_filter] stands for what
    [tools.RunFilter(filter, **kwargs).apply] does to a store; the class
    belongs to lab/tools.py, which is not among the embedded files, so it
    is an argument here: applying the caller's filter drops runs or
    changes property values, and a filter function may fail. *)
Definition merge_props `{E : Env} (merge : option bool) (src_dir : string)
    (eval_dir : option string) (run_filter : pydict → res pydict)
    (parsers : list string) : M (string * pydict) :=
  let! st := prepare merge src_dir eval_dir in
  let src_props := st.1.1 in
  let fetch_from_eval_dir := st.1.2 in
  let eval_dir := st.2 in
  (* Load properties in the eval_dir if there are any already. *)
  let! combined_props :=
    tools_Properties (Some (os_path_join eval_dir ["properties"])) in
  if fetch_from_eval_dir then
    let! src_props := lift (run_filter src_props) in
    ret (eval_dir, dict_update combined_props src_props)
  else
    let! new_props := collect src_dir eval_dir parsers in
    let! new_props := lift (run_filter new_props) in
    ret (eval_dir, dict_update combined_props new_props).

Definition __call__ `{E : Env} (merge : option bool) (src_dir : string)
    (eval_dir : option string) (run_filter : pydict → res pydict)
    (parsers : list string) : M () :=
  let! merged := merge_props merge src_dir eval_dir run_filter parsers in
  let eval_dir := merged.1 in
  let combined_props := merged.2 in
  report eval_dir (os_path_join eval_dir ["properties"]) combined_props.

End Fetcher.

(** ** lab/data/default-parser.py

    The checks take the content of a file and the properties of the run,
    and change the properties in place; here they return the changed
    properties. *)

Module DefaultParser.

Definition MAX_LOG_SIZE_IN_KB : Z := 100 * 1024.

(** [sys.getsizeof] depends on how the interpreter lays its objects out in
    memory; it is an argument. *)
Definition check_log_size (getsizeof : string → Z) (content : string)
    (props : pydict) : pydict :=
  let log_size_in_kb := (getsizeof content `div` 1024)%Z in
  let props := <["log_size_in_kb" := VNum log_size_in_kb]> props in
  if (log_size_in_kb >? MAX_LOG_SIZE_IN_KB)%Z then
    <["error" := VStr ("unexplained-error:logfile-too-big (" +:+
                       pretty log_size_in_kb +:+ " KB > " +:+
                       pretty MAX_LOG_SIZE_IN_KB +:+ " KB)")]> props
  else props.

Definition check_stderr_output (content : string) (props : pydict) : pydict :=
  if negb (String.eqb content "") then
    <["error" := VStr "unexplained-error:output-to-run-err"]> props
  else props.

Definition check_driver_stderr_output (content : string) (props : pydict)
  : pydict :=
  if negb (String.eqb content "") then
    <["error" := VStr "unexplained-error:output-to-driver-err"]> props
  else props.

Definition check_driver_failures (content : string) (props : pydict) : pydict :=
  props.

End DefaultParser.

(** ** downward/reports/scatter.py

    The two methods of [ScatterPlotReport] that prepare the coordinates.
    They do not compute with the values, so the type of a value is left
    open where the code only passes it on. *)

Module ScatterPlotReport.

Inductive exception :=
| AssertionError
| ValueError
| IndexError
| KeyError (key : string).

Inductive result (A : Type) :=
| Returns (a : A)
| Raises (e : exception).
Arguments Returns {A} a.
Arguments Raises {A} e.

(** [zip] applied to the unpacked list of pairs ([zip] with a starred
    argument): the list of the two columns, and
    the empty list when there is no pair. *)
Definition zip_star {A} (pairs : list (A * A)) : list (list A) :=
  match pairs with
  | [] => []
  | _ => [pairs.*1; pairs.*2]
  end.

(** [a, b = s]: the sequence must have exactly two items. *)
Definition unpack2 {A} (s : list A) : result (A * A) :=
  match s with
  | [a; b] => Returns (a, b)
  | _ => Raises ValueError
  end.

(** [show_missing] is [self.show_missing].  The result is a sequence of
    sequences: a pair of lists in the first case, the list that the
    starred [zip] gives in the second. *)
Definition _handle_none_values {A} (show_missing : bool)
    (X Y : list (option A)) (replacement : A) : result (list (list A)) :=
  if negb (length X =? length Y) then Raises AssertionError
  else if show_missing then
    Returns [default replacement <$> X; default replacement <$> Y]
  else
    Returns (zip_star
               (omap (λ xy, match xy with
                            | (Some x, Some y) => Some (x, y)
                            | _ => None
                            end) (zip X Y))).

(** The two unpacking assignments of the second loop of [_plot]:
    [X, Y = zip( *coords)] and
    [X, Y = self._handle_none_values(X, Y, missing_val)]. *)
Definition category_points {A} (show_missing : bool)
    (coords : list (option A * option A)) (missing_val : A)
  : result (list A * list A) :=
  match unpack2 (zip_star coords) with
  | Raises e => Raises e
  | Returns (X, Y) =>
      match _handle_none_values show_missing X Y missing_val with
      | Raises e => Raises e
      | Returns points => unpack2 points
      end
  end.

(** [v == c] for a property value and a [str]. *)
Definition eq_str (v : pyval) (c : string) : bool :=
  match v with
  | VStr s => String.eqb s c
  | _ => false
  end.

(** [run[key]]. *)
Definition getitem (run : pydict) (key : string) : result pyval :=
  match run !! key with
  | Some v => Returns v
  | None => Raises (KeyError key)
  end.

(** [seq[i]]. *)
Definition index {A} (l : list A) (i : nat) : result A :=
  match l !! i with
  | Some x => Returns x
  | None => Raises IndexError
  end.

(** The body of the loop of [_fill_categories]; [categories] is the
    [defaultdict(list)] that the loop fills. *)
Definition fill_category (configs : list string) (attribute : string)
    (get_category : pydict → pydict → option string)
    (item : (string * string) * (pydict * pydict))
    (categories : gmap (option string) (list (pyval * pyval)))
  : result (gmap (option string) (list (pyval * pyval))) :=
  let '(_, (run1, run2)) := item in
  match getitem run1 "config" with
  | Raises e => Raises e
  | Returns config1 =>
  match index configs 0 with
  | Raises e => Raises e
  | Returns wanted1 =>
  if negb (eq_str config1 wanted1) then Raises AssertionError else
  match getitem run2 "config" with
  | Raises e => Raises e
  | Returns config2 =>
  match index configs 1 with
  | Raises e => Raises e
  | Returns wanted2 =>
  if negb (eq_str config2 wanted2) then Raises AssertionError else
  let val1 := default VNone (run1 !! attribute) in
  let val2 := default VNone (run2 !! attribute) in
  match val1, val2 with
  | VNone, VNone => Returns categories
  | _, _ =>
      let category := get_category run1 run2 in
      Returns (<[category := default [] (categories !! category) ++ [(val1, val2)]]>
                 categories)
  end
  end end end end.

(** [problem_runs] is the list [self.problem_runs.items()] gives;
    [configs] and [attribute] are the attributes of the report. *)
Fixpoint fill_from (configs : list string) (attribute : string)
    (get_category : pydict → pydict → option string)
    (problem_runs : list ((string * string) * (pydict * pydict)))
    (categories : gmap (option string) (list (pyval * pyval)))
  : result (gmap (option string) (list (pyval * pyval))) :=
  match problem_runs with
  | [] => Returns categories
  | item :: rest =>
      match fill_category configs attribute get_category item categories with
      | Raises e => Raises e
      | Returns categories' =>
          fill_from configs attribute get_category rest categories'
      end
  end.

Definition _fill_categories (configs : list string) (attribute : string)
    (get_category : pydict → pydict → option string)
    (problem_runs : list ((string * string) * (pydict * pydict)))
  : result (gmap (option string) (list (pyval * pyval))) :=
  fill_from configs attribute get_category problem_runs ∅.

End ScatterPlotReport.

(** ** Vocabulary of the statements *)

(** The number of slashes in a path. *)
Fixpoint slashes (s : string) : nat :=
  match s with
  | "" => 0
  | String c s' => (if Ascii.eqb c "/"%char then 1 else 0) + slashes s'
  end.

(** The cache entry of a revision under a cache root, and the marker file
    of an entry. *)
Definition target (self : CachedRevision.t) (revision_cache_dir : string) : string :=
  os_path_join revision_cache_dir [CachedRevision._get_cached_revision_name self].
Definition marker (p : string) : string := os_path_join p ["build_successful"].

Definition build_cmd (self : CachedRevision.t) : list string :=
  ["./build.py"] ++ CachedRevision.build_options self.

(** A run counts as an unexplained error: it has no [error] property, or
    its [error] is a string that starts with [unexplained]. *)
Definition unexplained (props : pyval) : bool :=
  match props with
  | VDict d =>
      match d !! "error" with
      | None => true
      | Some (VStr s) => startswith s "unexplained"
      | Some _ => false
      end
  | _ => false
  end.

(** A run is a mapping whose [error], when there is one, is a string or a
    false value. *)
Definition error_typed (props : pyval) : bool :=
  match props with
  | VDict d =>
      match d !! "error" with
      | None | Some (VStr _) => true
      | Some e => negb (truthy e)
      end
  | _ => false
  end.

Definition has_run_dir (props : pyval) : bool :=
  match props with
  | VDict d => bool_decide (is_Some (d !! "run_dir"))
  | _ => false
  end.

(** No external program deletes the path [q]. *)
Definition keeps `{E : Env} (q : string) : Prop :=
  ∀ cmd cwd (t : FS), is_Some (t !! q) → is_Some ((subprocess cmd cwd t).2 !! q).

Definition is_warning (e : event) : bool :=
  match e with
  | Log WARNING _ _ => true
  | _ => false
  end.

(** Between two worlds the tree did not change and nothing happened but
    warnings. *)
Definition only_warnings (w w' : World) : Prop :=
  fs w' = fs w ∧
  ∃ new, events w' = events w ++ new ∧ Forall (λ e, is_warning e = true) new.

(** ** Vocabulary of the further properties *)

(** The string holds no [-]. *)
Fixpoint dash_free (s : string) : bool :=
  match s with
  | "" => true
  | String c s' => negb (Ascii.eqb c "-"%char) && dash_free s'
  end.

(** The question [_check_eval_dir] asks. *)
Definition question (eval_dir : string) : string :=
  eval_dir +:+ " already exists. Do you want to (o)verwrite it, " +:+
  "(m)erge the results, or (c)ancel? ".

(** The destination of a fetch: [eval_dir or src_dir.rstrip('/') + '-eval']. *)
Definition destination (src_dir : string) (eval_dir : option string) : string :=
  match eval_dir with
  | Some d => if String.eqb d "" then str_rstrip src_dir "/" +:+ "-eval" else d
  | None => str_rstrip src_dir "/" +:+ "-eval"
  end.

(** The source of a fetch is taken for an evaluation directory. *)
Definition from_eval_dir (src_dir : string) (src_props : pydict) : bool :=
  negb (bool_decide ("runs" ∈ dom src_props)) || endswith src_dir "-eval".

(** The tree [t] with the directory [p], which is added when the tree has
    nothing at [p]. *)
Definition with_dir (p : string) (t : FS) : FS :=
  match t !! p with Some _ => t | None => <[p := Dir]> t end.

(** Loading [filename] from the tree [t] gives [c]. *)
Definition loads (t : FS) (filename : string) (c : pydict) : Prop :=
  (t !! filename = None ∧ c = ∅) ∨ t !! filename = Some (File (Some (VDict c))).

Definition is_log (e : event) : bool :=
  match e with
  | Log _ _ _ => true
  | _ => false
  end.

(** The store the scan builds from run directories with the given
    [id] parts and properties. *)
Definition store_of (entries : list (string * (list string * pydict))) : pydict :=
  foldl (λ m e, <[str_join "-" e.2.1 := VDict e.2.2]> m) ∅ entries.

(** An item of [problem_runs]: the domain and the problem, and the runs of
    the two configurations. *)
Abbreviation problem_run := ((string * string) * (pydict * pydict))%type.

(** [None] for Python's [None], the value itself otherwise. *)
Definition as_option (v : pyval) : option pyval :=
  match v with
  | VNone => None
  | _ => Some v
  end.

Definition as_coordinate (xy : pyval * pyval) : option pyval * option pyval :=
  (as_option xy.1, as_option xy.2).

(** The two values of a problem: the attribute of the run of each
    configuration, [VNone] where the run does not have it. *)
Definition values (attribute : string) (item : problem_run) : pyval * pyval :=
  (default VNone (item.2.1 !! attribute), default VNone (item.2.2 !! attribute)).

(** At least one of the two runs of the problem has a value. *)
Definition has_value (attribute : string) (item : problem_run) : bool :=
  match values attribute item with
  | (VNone, VNone) => false
  | _ => true
  end.

(** The first run of the problem belongs to the first configuration of
    the report and the second run to the second. *)
Definition well_configured (configs : list string) (item : problem_run) : Prop :=
  ∃ c1 c2, configs !! 0 = Some c1 ∧ configs !! 1 = Some c2 ∧
           item.2.1 !! "config" = Some (VStr c1) ∧
           item.2.2 !! "config" = Some (VStr c2).

(** The value pairs of the problems of category [c] that have a value,
    in the order of the problems. *)
Definition coordinates_of (attribute : string)
    (get_category : pydict → pydict → option string)
    (problem_runs : list problem_run) (c : option string)
  : list (pyval * pyval) :=
  values attribute <$>
    filter (λ item, has_value attribute item = true ∧
                    get_category item.2.1 item.2.2 = c) problem_runs.

(** The pairs without a missing value. *)
Definition complete {A} (coords : list (option A * option A)) : list (A * A) :=
  omap (λ xy, match xy with
              | (Some x, Some y) => Some (x, y)
              | _ => None
              end) coords.

(** ** Sample environments and inputs *)

Module Sample.

(** [hg archive] exports a tree with a [build.py] into its last argument;
    [build.py] fails when asked to with [--fail]; every other program
    succeeds and changes nothing.  The user answers "merge". *)
Definition run_program (cmd : list string) (cwd : option string) (t : FS) : Z * FS :=
  if String.eqb (hd "" cmd) "hg" then
    (0%Z, <[os_path_join (List.last cmd "") ["build.py"] := File None]> t)
  else if String.eqb (hd "" cmd) "./build.py" then
    (if bool_decide ("--fail" ∈ cmd) then 2%Z else 0%Z, t)
  else (0%Z, t).

Definition env : Env := {|
  subprocess := run_program;
  raw_input := λ _, "m";
  os_path_relpath := λ p _, p;
  dict_items := map_to_list;
  dict_items_perm := λ d, reflexivity (map_to_list d);
  properties_malformed := λ _, Raise SystemExit
|}.


(** The same as [env], but a property file that does not parse loads as a
    mapping with only an [error] property. *)
Definition env_lenient : Env := {|
  subprocess := run_program;
  raw_input := λ _, "m";
  os_path_relpath := λ p _, p;
  dict_items := map_to_list;
  dict_items_perm := λ d, reflexivity (map_to_list d);
  properties_malformed := λ _, Ok {["error" := VStr "unexplained-unparsable"]}
|}.

Definition revision (options : list string) (p : option string) : CachedRevision.t :=
  CachedRevision.mk "repo" options "tip" "0a1b2c3d" "0a1b2c3d tip" p.

(** A cache root without entries. *)
Definition empty_cache : World :=
  mkWorld (<["cache" := Dir]> (<["repo" := Dir]> ∅)) [].

(** An entry that was checked out but carries no marker, with all its
    build output in place. *)
Definition unmarked_entry : World :=
  mkWorld (<["cache/0a1b2c3d-release32" := Dir]>
           (<["cache/0a1b2c3d-release32/builds/release32/bin/downward" := File None]>
            (<["cache" := Dir]> (<["repo" := Dir]> ∅)))) [].

(** An entry right after the checkout. *)
Definition checked_out : World :=
  mkWorld (<["cache/0a1b2c3d-release32" := Dir]>
           (<["cache/0a1b2c3d-release32/build.py" := File None]>
            (<["cache" := Dir]> (<["repo" := Dir]> ∅)))) [].

Definition run_properties (config : string) (extra : pydict) : node :=
  File (Some (VDict (<["id" := VList [VStr "d"; VStr "p"; VStr config]]> extra))).

(** An experiment directory with two runs; the first has no [properties]
    file. *)
Definition experiment : World :=
  mkWorld (<["exp" := Dir]>
           (<["exp/properties" := File (Some (VDict {["runs" := VNum 2]}))]>
            (<["exp/runs-00001-00100" := Dir]>
             (<["exp/runs-00001-00100/00001" := Dir]>
              (<["exp/runs-00001-00100/00002" := Dir]>
               (<["exp/runs-00001-00100/00002/properties" :=
                    run_properties "c2" {["run_dir" := VStr "runs-00001-00100/00002"]}]>
                ∅)))))) [].

(** The same, but the first run has a [properties] file that does not
    parse. *)
Definition experiment_unparsable : World :=
  mkWorld (<["exp/runs-00001-00100/00001/properties" := File None]> (fs experiment)) [].

(** A store whose only run has an [id] and nothing else, and an
    evaluation directory that holds it. *)
Definition store_without_run_dir : pydict :=
  {["d-p-c1" := VDict {["id" := VList [VStr "d"; VStr "p"; VStr "c1"]]}]}.
Definition evaluation : World :=
  mkWorld (<["exp-eval" := Dir]>
           (<["exp-eval/properties" :=
                File (Some (VDict store_without_run_dir))]> ∅)) [].

(** The properties of a run with an empty [error]. *)
Definition run_with_empty_error : pydict :=
  <["error" := VStr ""]> {["run_dir" := VStr "runs-00001-00100/00001"]}.

End Sample.

(** ** Further sample inputs *)

Module Cases.

(** An entry that was built and marked. *)
Definition built_entry : World :=
  mkWorld (<["cache/0a1b2c3d-release32" := Dir]>
           (<["cache/0a1b2c3d-release32/build_successful" := File None]>
            (<["cache" := Dir]> (<["repo" := Dir]> ∅)))) [].

(** The two look-ups of [__init__] in a repository whose revision [tip]
    is [0a1b2c3d]. *)
Definition get_global_rev (repo rev : string) : M string := ret "0a1b2c3d".
Definition get_rev_id (repo rev : string) : M string := ret "0a1b2c3d tip".

(** An evaluation directory whose only run finished without an error. *)
Definition finished_run : pydict :=
  <["error" := VStr "none"]>
    (<["run_dir" := VStr "runs-00001-00100/00001"]>
       {["id" := VList [VStr "d"; VStr "p"; VStr "c1"]]}).
Definition finished_store : pydict := {["d-p-c1" := VDict finished_run]}.
Definition finished_evaluation : World :=
  mkWorld (<["done-eval" := Dir]>
           (<["done-eval/properties" := File (Some (VDict finished_store))]> ∅)) [].

(** An evaluation directory whose only run has a number as its [error]. *)
Definition numeric_error_store : pydict :=
  {["d-p-c1" := VDict (<["error" := VNum 1]> {["run_dir" := VStr "r"]})]}.
Definition numeric_error_evaluation : World :=
  mkWorld (<["bad-eval" := Dir]>
           (<["bad-eval/properties" :=
                File (Some (VDict numeric_error_store))]> ∅)) [].

(** An experiment directory whose two runs both have properties. *)
Definition first_run : pydict :=
  <["id" := VList [VStr "d"; VStr "p"; VStr "c1"]]>
    {["run_dir" := VStr "runs-00001-00100/00001"]}.
Definition second_run : pydict :=
  <["id" := VList [VStr "d"; VStr "p"; VStr "c2"]]>
    {["run_dir" := VStr "runs-00001-00100/00002"]}.
Definition experiment : World :=
  mkWorld (<["exp" := Dir]>
           (<["exp/properties" := File (Some (VDict {["runs" := VNum 2]}))]>
            (<["exp/runs-00001-00100" := Dir]>
             (<["exp/runs-00001-00100/00001" := Dir]>
              (<["exp/runs-00001-00100/00001/properties" :=
                   File (Some (VDict first_run))]>
               (<["exp/runs-00001-00100/00002" := Dir]>
                (<["exp/runs-00001-00100/00002/properties" :=
                     File (Some (VDict second_run))]>
                 ∅))))))) [].
Definition experiment_runs : list (string * (list string * pydict)) :=
  [("exp/runs-00001-00100/00001", (["d"; "p"; "c1"], first_run));
   ("exp/runs-00001-00100/00002", (["d"; "p"; "c2"], second_run))].

(** The runs of two configurations on three problems: both solve the
    first, only the first configuration solves the second, and nobody
    solves the third. *)
Definition run (config : string) (expansions : option Z) : pydict :=
  match expansions with
  | Some n => <["expansions" := VNum n]> {["config" := VStr config]}
  | None => {["config" := VStr config]}
  end.
Definition problem_runs : list problem_run :=
  [(("d", "p1"), (run "c1" (Some 10%Z), run "c2" (Some 20%Z)));
   (("d", "p2"), (run "c1" (Some 30%Z), run "c2" None));
   (("d", "p3"), (run "c1" None, run "c2" None))].
Definition one_category (run1 run2 : pydict) : option string := None.

(** One problem that only the first configuration solves. *)
Definition half_solved : list problem_run :=
  [(("d", "p2"), (run "c1" (Some 30%Z), run "c2" None))].

End Cases.

(** * Properties *)

(** ** Strings and paths *)

Lemma app_cons c s t : String c s +:+ t = String c (s +:+ t).
Proof. reflexivity. Qed.

Lemma str_app_assoc (a b c : string) : (a +:+ b) +:+ c = a +:+ b +:+ c.
Proof. induction a as [|x a IH]; [done|]. by rewrite !app_cons, IH. Qed.

Lemma append_empty a b : a +:+ b = "" → b = "".
Proof. destruct a; [done|]. by rewrite app_cons. Qed.

Lemma length_app a b :
  String.length (a +:+ b) = String.length a + String.length b.
Proof. induction a as [|x a IH]; [done|]. rewrite app_cons; simpl; rewrite IH; lia. Qed.

Lemma slashes_app a b : slashes (a +:+ b) = slashes a + slashes b.
Proof. induction a as [|x a IH]; [done|]. rewrite app_cons; simpl; rewrite IH; lia. Qed.

Lemma prefix_refl a : String.prefix a a = true.
Proof. induction a as [|x a IH]; [done|]. simpl. by destruct (ascii_dec x x). Qed.

Lemma prefix_app_l a b c :
  String.prefix (a +:+ b) c = true → String.prefix a c = true.
Proof.
  revert c. induction a as [|x a IH]; intros c; [by destruct c|].
  rewrite app_cons. destruct c as [|y c]; [done|]. simpl.
  destruct (ascii_dec x y); [apply IH|done].
Qed.

Lemma prefix_app_cancel a b c :
  String.prefix (a +:+ b) (a +:+ c) = String.prefix b c.
Proof.
  induction a as [|x a IH]; [done|].
  rewrite !app_cons; simpl. destruct (ascii_dec x x); [done|congruence].
Qed.

Lemma prefix_length a b :
  String.prefix a b = true → String.length a ≤ String.length b.
Proof.
  revert b. induction a as [|x a IH]; intros [|y b] Hp; simpl in *; try lia; try done.
  destruct (ascii_dec x y); [|done]. apply IH in Hp. lia.
Qed.

Lemma prefix_slashes a b :
  String.prefix a b = true → slashes a ≤ slashes b.
Proof.
  revert b. induction a as [|x a IH]; intros [|y b] Hp; simpl in *; try lia; try done.
  destruct (ascii_dec x y) as [->|]; [|done]. apply IH in Hp. lia.
Qed.

(** A match has as many slashes as its pattern: the star stays inside
    one path component. *)
Lemma glob_match_slashes pat : ∀ start s,
  glob_match pat start s = true → slashes s = slashes pat.
Proof.
  induction pat as [|p pat IH]; intros start s.
  - by destruct s.
  - simpl. destruct (Ascii.eqb p "*") eqn:Hp.
    + apply Ascii.eqb_eq in Hp as ->. simpl.
      destruct (start && startswith s "."); [done|].
      induction s as [|c s IHs].
      * rewrite orb_false_r. apply IH.
      * intros [Hm|Hm]%orb_true_iff; [by apply IH in Hm|].
        apply andb_true_iff in Hm as [Hc Hm]. apply IHs in Hm.
        simpl. by destruct (Ascii.eqb c "/").
    + destruct s as [|c s]; [done|].
      intros [Hc Hm]%andb_true_iff. apply Ascii.eqb_eq in Hc as ->.
      apply IH in Hm. simpl. by rewrite Hm.
Qed.

Lemma endswith_app a b : b ≠ "" → endswith (a +:+ b) "/" = endswith b "/".
Proof.
  intros Hb. induction a as [|x a IH]; [done|].
  rewrite app_cons. simpl. rewrite IH.
  destruct (a +:+ b) eqn:Hab; [by apply append_empty in Hab|].
  simpl. by destruct (Ascii.eqb x "/").
Qed.

Lemma dirsep_app a b : b ≠ "" → dirsep (a +:+ b) = dirsep b.
Proof.
  intros Hb. unfold dirsep. rewrite endswith_app by done.
  destruct (a +:+ b) eqn:Hab; [by apply append_empty in Hab|].
  by destruct b.
Qed.

Lemma dirsep_app2 a b c : c ≠ "" → dirsep (a +:+ b +:+ c) = dirsep c.
Proof. intros Hc. rewrite <- str_app_assoc. by apply dirsep_app. Qed.

Lemma join_rel p a :
  startswith a "/" = false → os_path_join p [a] = p +:+ dirsep p +:+ a.
Proof. intros Ha. unfold os_path_join. simpl. unfold os_path_join2. by rewrite Ha. Qed.


Lemma within_prefix r q : within r q = true → String.prefix r q = true.
Proof.
  unfold within, startswith. intros [Hq|Hq]%orb_true_iff.
  - apply String.eqb_eq in Hq as ->. apply prefix_refl.
  - by apply prefix_app_l in Hq.
Qed.

(** The pattern of the first clean-up loop has two slashes more than the
    entry's directory prefix; the marker has none more. *)
Lemma slashes_builds_pattern p :
  slashes (os_path_join p ["builds"; "*"; "*"]) = slashes p + slashes (dirsep p) + 2.
Proof.
  unfold os_path_join. simpl. unfold os_path_join2. simpl.
  rewrite !dirsep_app2 by done. simpl.
  rewrite !slashes_app. simpl. lia.
Qed.

Lemma slashes_marker p : slashes (marker p) = slashes p + slashes (dirsep p).
Proof.
  unfold marker, os_path_join. simpl. unfold os_path_join2. simpl.
  rewrite !slashes_app. simpl. lia.
Qed.

(** What the first clean-up loop removes contains neither the entry nor
    its marker. *)
Lemma glob_builds_outside p r :
  glob_match (os_path_join p ["builds"; "*"; "*"]) true r = true →
  within r p = false ∧ within r (marker p) = false.
Proof.
  intros Hm%glob_match_slashes. rewrite slashes_builds_pattern in Hm.
  split; apply not_true_is_false; intros Hw%within_prefix%prefix_slashes.
  - lia.
  - rewrite slashes_marker in Hw. lia.
Qed.

(** Nor does [build.py]. *)
Lemma build_py_outside p :
  within (os_path_join p ["build.py"]) p = false ∧
  within (os_path_join p ["build.py"]) (marker p) = false.
Proof.
  unfold marker. rewrite !join_rel by done.
  split; apply not_true_is_false; intros Hw%within_prefix.
  - apply prefix_length in Hw. rewrite !length_app in Hw. simpl in Hw. lia.
  - rewrite <- !str_app_assoc in Hw. by rewrite prefix_app_cancel in Hw.
Qed.

(** ** The directory tree *)

Lemma remove_tree_lookup r (t : FS) q :
  within r q = false → remove_tree r t !! q = t !! q.
Proof.
  intros Hq. unfold remove_tree. destruct (t !! q) as [n|] eqn:Hn.
  - by apply map_lookup_filter_Some.
  - apply map_lookup_filter_None. by left.
Qed.


Lemma touched_keeps (t : FS) m q :
  is_Some (t !! q) →
  is_Some (match t !! m with Some _ => t | None => <[m := File None]> t end !! q).
Proof.
  intros Hq. destruct (t !! m); [done|].
  apply lookup_insert_is_Some. destruct (decide (m = q)); auto.
Qed.

Lemma touched_marked (t : FS) m :
  is_Some (match t !! m with Some _ => t | None => <[m := File None]> t end !! m).
Proof. destruct (t !! m) eqn:Hm; [by rewrite Hm|]. by rewrite lookup_insert_eq. Qed.

(** ** Running a computation *)

Lemma bind_Ok {A B} (c : M A) (k : A → M B) w a w' :
  c w = (Ok a, w') → bind c k w = k a w'.
Proof. unfold bind. by intros ->. Qed.

Lemma bind_Raise {A B} (c : M A) (k : A → M B) w e w' :
  c w = (Raise e, w') → bind c k w = (Raise e, w').
Proof. unfold bind. by intros ->. Qed.

Lemma bind_Ok_inv {A B} (c : M A) (k : A → M B) w b w' :
  bind c k w = (Ok b, w') → ∃ a w1, c w = (Ok a, w1) ∧ k a w1 = (Ok b, w').
Proof. unfold bind. destruct (c w) as [[a|e] w1]; [eauto|done]. Qed.

Lemma for_fold_app {A S} (l1 l2 : list A) (s : S) body w :
  for_fold (l1 ++ l2) s body w =
  bind (for_fold l1 s body) (λ s', for_fold l2 s' body) w.
Proof.
  revert s w. induction l1 as [|x l1 IH]; intros s w; [done|].
  simpl. unfold bind. destruct (body x s w) as [[s'|e] w']; [|done].
  by rewrite IH.
Qed.

Lemma zip_seq_app {A} (xs : list A) y ys a :
  zip (seq a (length (xs ++ y :: ys))) (xs ++ y :: ys) =
  zip (seq a (length xs)) xs ++
  (a + length xs, y) :: zip (seq (S (a + length xs)) (length ys)) ys.
Proof.
  revert a. induction xs as [|x xs IH]; intros a; simpl.
  - by rewrite Nat.add_0_r.
  - rewrite IH. by rewrite Nat.add_succ_r.
Qed.

(** Unfold the calls of the cache down to the world. *)
Ltac mrun :=
  unfold CachedRevision.cache, CachedRevision._compile, CachedRevision._cleanup,
    CachedRevision._get_sentinel_file, CachedRevision.get_cached_path,
    CachedRevision.path,
    shutil_rmtree, tools_run_command, subprocess_call, tools_touch, tools_makedirs,
    tools_remove_path, logging_critical, logging_critical_fmt, logging_info,
    logging_log, glob_glob,
    os_path_exists, emit, when, bind, ret, raise, lift; simpl.


(** Unfold the calls of the fetcher's error count down to the world. *)
Ltac frun :=
  unfold Fetcher.check_run, logging_critical_fmt, logging_log, logging_info,
    tools_makedirs, Properties_write, emit, when, bind, ret, raise, lift; simpl.

(** ** The build cache *)

Section CacheProperties.
Context `{E : Env}.
Import CachedRevision.

(** The first clean-up loop leaves alone every path outside the subtrees
    it removes. *)
Lemma remove_loop_keeps (paths : list string) q w :
  (∀ r, r ∈ paths → within r q = false) →
  ∃ w', for_each paths (λ r,
          when (negb (String.eqb (os_path_basename r) "bin")) (tools_remove_path r)) w
        = (Ok (), w') ∧ fs w' !! q = fs w !! q.
Proof.
  revert w. induction paths as [|r paths IH]; intros w Hout.
  - by exists w.
  - simpl. unfold bind at 1.
    assert (∃ w1, when (negb (String.eqb (os_path_basename r) "bin"))
                    (tools_remove_path r) w = (Ok (), w1) ∧ fs w1 !! q = fs w !! q)
      as (w1 & -> & Hw1).
    { destruct (negb _); simpl.
      - eexists. split; [reflexivity|]. simpl. apply remove_tree_lookup, Hout. by left.
      - by exists w. }
    destruct (IH w1) as (w' & Hrun & Hw'); [intros r' Hr'; apply Hout; by right|].
    exists w'. split; [done|]. by rewrite Hw'.
Qed.

(** [_cleanup] always returns, and it keeps the entry and its marker when
    the programs it starts do. *)
Lemma cleanup_keeps self p q w :
  _path self = Some p → q = p ∨ q = marker p → keeps q →
  is_Some (fs w !! q) →
  ∃ w', _cleanup self w = (Ok (), w') ∧ is_Some (fs w' !! q).
Proof.
  intros Hp Hq Hk Hw. unfold _cleanup, get_cached_path, path. rewrite Hp.
  unfold bind at 1. unfold ret at 1.
  unfold bind at 1. unfold glob_glob at 1.
  unfold bind at 1.
  edestruct (remove_loop_keeps
    (filter (λ r, glob_match (os_path_join p ["builds"; "*"; "*"]) true r = true)
            (map_to_list (fs w)).*1) q w) as (w1 & -> & Hw1).
  { intros r [Hr _]%list_elem_of_filter. apply glob_builds_outside in Hr.
    destruct Hq as [-> | ->]; tauto. }
  mrun. eexists. split; [reflexivity|]. simpl.
  do 3 apply Hk. rewrite remove_tree_lookup; [by rewrite Hw1|].
  pose proof (build_py_outside p). destruct Hq as [-> | ->]; tauto.
Qed.

(** A build that returns has written the marker. *)
Lemma compile_Ok self p w w' :
  _path self = Some p →
  _compile self w = (Ok (), w') →
  is_Some (fs w' !! marker p) ∧
  (keeps p → is_Some (fs w !! p) → is_Some (fs w' !! p)).
Proof.
  intros Hp. mrun. rewrite Hp. simpl.
  destruct (bool_decide _); simpl; [|done].
  destruct (_ =? _)%Z; simpl; [|done].
  intros [= <-]. simpl. split; [apply touched_marked|].
  intros Hk Hw. by apply touched_keeps, Hk.
Qed.

(** A call of [cache] that returns leaves a marked entry. *)
Lemma cache_Ok self dir w self1 w1 :
  keeps (target self dir) → keeps (marker (target self dir)) →
  cache self dir w = (Ok self1, w1) →
  _path self1 = Some (target self dir) ∧
  is_Some (fs w1 !! target self dir) ∧
  is_Some (fs w1 !! marker (target self dir)).
Proof.
  intros Hkp Hkm. unfold cache. fold (target self dir).
  set (p := target self dir) in *.
  set (self' := mk _ _ _ _ _ _).
  assert (Hp : _path self' = Some p) by done.
  intros (p0 & w0 & Hp0 & Hc)%bind_Ok_inv.
  injection Hp0 as <- <-.
  apply bind_Ok_inv in Hc as (cached & wa & Hex & Hc).
  apply bind_Ok_inv in Hc as ([] & wb & Hc & Hret).
  injection Hret as <- <-.
  split; [done|].
  unfold os_path_exists in Hex. injection Hex as <- <-.
  destruct (bool_decide _) eqn:Hcached.
  - apply bool_decide_eq_true_1 in Hcached. revert Hc. mrun.
    fold (marker p).
    destruct (bool_decide (is_Some (fs w !! marker p))) eqn:Hm; simpl; [|done].
    intros [= <-]. simpl. split; [done|]. by apply bool_decide_eq_true_1 in Hm.
  - apply bind_Ok_inv in Hc as (p1 & w1' & Hp1 & Hc). injection Hp1 as <- <-.
    apply bind_Ok_inv in Hc as ([] & w2 & Hmk & Hc).
    apply bind_Ok_inv in Hc as (p2 & w2' & Hp2' & Hc). injection Hp2' as <- <-.
    apply bind_Ok_inv in Hc as (rc & w3 & Hhg & Hc).
    apply bind_Ok_inv in Hc as ([] & w4 & Hfail & Hc).
    apply bind_Ok_inv in Hc as ([] & w5 & Hcomp & Hclean).
    assert (is_Some (fs w2 !! p)) as Hp2.
    { revert Hmk. mrun. intros [= <-]. simpl.
      destruct (fs w !! p) eqn:Hfree; [by rewrite Hfree|]. by rewrite lookup_insert_eq. }
    assert (is_Some (fs w3 !! p)) as Hp3.
    { revert Hhg. mrun. intros [= _ <-]. simpl. by apply Hkp. }
    assert (w4 = w3) as ->.
    { revert Hfail. mrun. destruct (negb _); simpl; [|by intros [= <-]].
      by rewrite (bool_decide_eq_true_2 _ Hp3). }
    apply (compile_Ok _ p) in Hcomp as [Hm5 Hp5]; [|done].
    specialize (Hp5 Hkp Hp3).
    destruct (cleanup_keeps self' p p w5) as (w6 & Hrun6 & Hp6); auto.
    destruct (cleanup_keeps self' p (marker p) w5) as (w6' & Hrun6' & Hm6); auto.
    rewrite Hclean in Hrun6, Hrun6'. injection Hrun6 as <-. injection Hrun6' as <-.
    done.
Qed.


(** C2.  When the entry exists and its marker does not, [cache] ends the
    process with the corrupted-entry message, whatever else the tree
    holds: the tree is left as it was and nothing is run. *)
Theorem cache_rejects_unmarked_entry self dir w :
  is_Some (fs w !! target self dir) →
  fs w !! marker (target self dir) = None →
  ∃ w', cache self dir w = (Raise SystemExit, w') ∧
        fs w' = fs w ∧
        events w' = events w ++
          [Log INFO (already_cached (target self dir)) [];
           Log CRITICAL (corrupted (target self dir)) []].
Proof.
  intros Hp Hm. eexists. split.
  - mrun. fold (target self dir). rewrite (bool_decide_eq_true_2 _ Hp). simpl.
    fold (marker (target self dir)). rewrite Hm. simpl. reflexivity.
  - simpl. split; [done|]. unfold events. simpl.
    rewrite !fmap_app. simpl. by rewrite <- app_assoc.
Qed.


(** C5.  After a call of [cache] that returned, a second call for the same
    global revision and build options returns the same path, leaves the
    tree as it is and only logs that the revision is cached: no checkout,
    no build.  The external programs are taken not to delete the entry or
    its marker. *)
Theorem cache_twice self self' dir w self1 w1 :
  keeps (target self dir) → keeps (marker (target self dir)) →
  global_rev self' = global_rev self → build_options self' = build_options self →
  cache self dir w = (Ok self1, w1) →
  ∃ self2 w2,
    cache self' dir w1 = (Ok self2, w2) ∧
    _path self1 = Some (target self dir) ∧
    _path self2 = Some (target self dir) ∧
    fs w2 = fs w1 ∧
    events w2 = events w1 ++
      [Log INFO (already_cached (target self dir)) []].
Proof.
  intros Hkp Hkm Hrev Hopt Hfirst.
  destruct (cache_Ok _ _ _ _ _ Hkp Hkm Hfirst) as (Hp1 & Hp & Hm).
  assert (target self' dir = target self dir) as Htgt.
  { unfold target, _get_cached_revision_name. by rewrite Hrev, Hopt. }
  do 2 eexists. split; [|split; [done|]].
  - mrun. fold (target self' dir). rewrite Htgt.
    rewrite (bool_decide_eq_true_2 _ Hp). simpl.
    fold (marker (target self dir)). rewrite (bool_decide_eq_true_2 _ Hm). simpl.
    reflexivity.
  - simpl. split; [by rewrite <- Htgt|]. split; [done|].
    unfold events. simpl. by rewrite fmap_app.
Qed.

(** C7.  When [build.py] is there and returns a non-zero code, [_compile]
    ends the process after logging the failure and does nothing else: the
    tree is as the build left it, so the entry is still there if the build
    did not delete it, and there is no marker if the build did not write
    one. *)
Theorem build_failure_keeps_entry self p w :
  _path self = Some p →
  is_Some (fs w !! os_path_join p ["build.py"]) →
  let r := subprocess (build_cmd self) (Some p) (fs w) in
  r.1 ≠ 0%Z →
  ∃ w',
    _compile self w = (Raise SystemExit, w') ∧
    fs w' = r.2 ∧
    events w' = events w ++
      [Exec (build_cmd self) (Some p) r.1;
       Log CRITICAL ("Build failed in " +:+ p) []] ∧
    (is_Some (r.2 !! p) → is_Some (fs w' !! p)) ∧
    (r.2 !! marker p = None → fs w' !! marker p = None).
Proof.
  intros Hp Hb r Hrc. subst r. unfold build_cmd in *. simpl in *.
  mrun. rewrite Hp. simpl.
  rewrite (bool_decide_eq_true_2 _ Hb). simpl.
  apply Z.eqb_neq in Hrc. rewrite Hrc. simpl.
  eexists. split; [reflexivity|]. simpl. split; [done|].
  split; [|done]. unfold events. simpl. rewrite !fmap_app. simpl.
  by rewrite <- app_assoc.
Qed.

End CacheProperties.

(** C8.  The name of the cache entry does not determine the build
    options: for every revision, the option list with the one token
    [a-b] and the list with the two tokens [a], [b] give the same name,
    hence the same entry under every cache root. *)
Theorem cache_name_not_injective :
  ∀ repo local_rev global_rev summary,
    let k1 := CachedRevision.mk repo ["a-b"] local_rev global_rev summary None in
    let k2 := CachedRevision.mk repo ["a"; "b"] local_rev global_rev summary None in
    CachedRevision.global_rev k1 = CachedRevision.global_rev k2 ∧
    CachedRevision.build_options k1 ≠ CachedRevision.build_options k2 ∧
    CachedRevision._get_cached_revision_name k1 =
      CachedRevision._get_cached_revision_name k2 ∧
    ∀ dir, target k1 dir = target k2 dir.
Proof. intros. split; [done|]. split; [done|]. split; reflexivity. Qed.

(** ** The fetcher: the error count *)

Lemma only_warnings_refl w : only_warnings w w.
Proof. split; [done|]. exists []. by rewrite app_nil_r. Qed.

Lemma only_warnings_trans w1 w2 w3 :
  only_warnings w1 w2 → only_warnings w2 w3 → only_warnings w1 w3.
Proof.
  intros (Hfs1 & new1 & He1 & Hw1) (Hfs2 & new2 & He2 & Hw2).
  split; [congruence|]. exists (new1 ++ new2).
  rewrite He2, He1, app_assoc. split; [done|]. by apply Forall_app.
Qed.

Lemma only_warnings_log w msg args :
  only_warnings w
    {| fs := fs w; trace := trace w ++ [(Log WARNING msg args, fs w)] |}.
Proof.
  split; [done|]. exists [Log WARNING msg args]. split.
  - unfold events. simpl. by rewrite fmap_app.
  - by repeat constructor.
Qed.

Lemma unexplained_nonempty s :
  startswith s "unexplained" = true → truthy (VStr s) = true.
Proof. by destruct s. Qed.

(** The three ways the loop body ends on a run whose [error] is a string,
    a false value or absent: the run is passed over, counted with a
    warning, or the warning cannot be formatted. *)
Lemma check_run_skip v n w :
  error_typed v = true → unexplained v = false →
  Fetcher.check_run v n w = (Ok n, w).
Proof.
  destruct v as [| | | |l|d]; try done. simpl.
  destruct (d !! "error") as [e|] eqn:He; [|done].
  unfold Fetcher.check_run. simpl.
  destruct e as [|b|z|s|l|d']; simpl; try done.
  - by destruct b.
  - by intros ->%negb_true_iff.
  - intros _ ->. by destruct (negb _).
  - by destruct l.
  - by intros ->%negb_true_iff.
Qed.

Lemma check_run_count v n w :
  unexplained v = true → has_run_dir v = true →
  ∃ args, Fetcher.check_run v n w =
    (Ok (S n),
     {| fs := fs w;
        trace := trace w ++
          [(Log WARNING "Unexplained error in {props[run_dir]}: {error}" args,
            fs w)] |}).
Proof.
  destruct v as [| | | |l|d]; try done. simpl.
  intros Hu [rd Hrd]%bool_decide_eq_true_1.
  unfold Fetcher.check_run. simpl. rewrite Hrd.
  destruct (d !! "error") as [e|] eqn:He; simpl.
  - destruct e; try done. rewrite (unexplained_nonempty _ Hu). simpl.
    rewrite Hu. frun. eauto.
  - frun. eauto.
Qed.

Lemma check_run_raise v n w :
  unexplained v = true → has_run_dir v = false →
  Fetcher.check_run v n w = (Raise (KeyError "run_dir"), w).
Proof.
  destruct v as [| | | |l|d]; try done. simpl.
  intros Hu Hrd%bool_decide_eq_false_1.
  assert (d !! "run_dir" = None) as Hnone.
  { destruct (d !! "run_dir") eqn:Hsome; [|done]. destruct Hrd. by eexists. }
  unfold Fetcher.check_run. simpl. rewrite Hnone.
  destruct (d !! "error") as [e|] eqn:He; simpl.
  - destruct e; try done. rewrite (unexplained_nonempty _ Hu). simpl.
    rewrite Hu. by frun.
  - by frun.
Qed.

(** The loop ends with [KeyError] when it meets a run that counts as
    unexplained and has no [run_dir]; up to there it only logged
    warnings. *)
Lemma count_loop_raises vs : ∀ n w,
  Forall (λ v, error_typed v = true) vs →
  Exists (λ v, unexplained v = true ∧ has_run_dir v = false) vs →
  ∃ w', for_fold vs n Fetcher.check_run w = (Raise (KeyError "run_dir"), w') ∧
        only_warnings w w'.
Proof.
  induction vs as [|v vs IH]; intros n w Hty Hex; [by apply Exists_nil in Hex|].
  apply Forall_cons in Hty as [Hv Hty]. simpl. unfold bind.
  destruct (unexplained v) eqn:Hu.
  - destruct (has_run_dir v) eqn:Hrd.
    + destruct (check_run_count v n w Hu Hrd) as [args ->].
      apply Exists_cons in Hex as [[_ ?]|Hex]; [congruence|].
      match goal with |- context [for_fold vs ?m _ ?w0] =>
        destruct (IH m w0 Hty Hex) as (w' & -> & Hw') end.
      exists w'. split; [done|].
      eapply only_warnings_trans; [apply only_warnings_log|done].
    + rewrite check_run_raise by done.
      exists w. split; [done|apply only_warnings_refl].
  - rewrite check_run_skip by done.
    apply Exists_cons in Hex as [[? _]|Hex]; [congruence|].
    by apply IH.
Qed.


Section FetcherProperties.
Context `{E : Env}.
Import Fetcher.

Lemma dict_values_lookup (d : pydict) v :
  v ∈ (dict_items d).*2 ↔ ∃ k, d !! k = Some v.
Proof.
  rewrite list_elem_of_fmap. split.
  - intros ([k v'] & -> & Hin). exists k.
    rewrite dict_items_perm in Hin. by apply elem_of_map_to_list in Hin.
  - intros [k Hk]. exists (k, v). split; [done|].
    rewrite dict_items_perm. by apply elem_of_map_to_list.
Qed.


(** C9.  When the merged store holds a run that counts as unexplained
    (no [error], or an [error] that starts with [unexplained]) and has
    no [run_dir], [__call__] ends with [KeyError] from formatting the
    warning: since the merge the tree has not changed and nothing but
    warnings happened, so the destination was neither created nor
    written.  The [error] values of the store are taken to be strings or
    false values. *)
Theorem call_raises_on_missing_run_dir merge src_dir eval_dir run_filter parsers
    w ed combined w1 :
  merge_props merge src_dir eval_dir run_filter parsers w = (Ok (ed, combined), w1) →
  (∀ k v, combined !! k = Some v → error_typed v = true) →
  (∃ k v, combined !! k = Some v ∧ unexplained v = true ∧ has_run_dir v = false) →
  ∃ w', __call__ merge src_dir eval_dir run_filter parsers w
          = (Raise (KeyError "run_dir"), w') ∧
        fs w' = fs w1 ∧
        ∃ new, events w' = events w1 ++ new ∧
               Forall (λ e, is_warning e = true) new.
Proof.
  intros Hmerge Hty (k & v & Hk & Hu & Hrd).
  unfold __call__, bind at 1. rewrite Hmerge.
  cbv beta iota zeta delta [fst snd].
  unfold report, bind at 1.
  destruct (count_loop_raises (dict_items combined).*2 0 w1) as (w' & -> & Hw').
  - apply Forall_forall. intros v' [k' Hk']%dict_values_lookup. eauto.
  - apply Exists_exists. exists v. split; [|done]. apply dict_values_lookup. eauto.
  - exists w'. split; [done|]. apply Hw'.
Qed.

(** C10.  A run whose [error] is present and false (the empty string,
    [None], zero, an empty list) is passed over by the loop body: nothing
    is logged and the counter stays, so the loop goes on as if the run
    were not there. *)
Theorem falsy_error_not_counted (d : pydict) e vs n w :
  d !! "error" = Some e → truthy e = false →
  check_run (VDict d) n w = (Ok n, w) ∧
  for_fold (VDict d :: vs) n check_run w = for_fold vs n check_run w.
Proof.
  intros He Ht.
  assert (check_run (VDict d) n w = (Ok n, w)) as Hrun.
  { unfold check_run. rewrite He. simpl. by rewrite Ht. }
  split; [done|].
  change (for_fold (VDict d :: vs) n check_run w)
    with (bind (check_run (VDict d) n) (λ s', for_fold vs s' check_run) w).
  by rewrite (bind_Ok _ _ _ _ _ Hrun).
Qed.

(** ** The fetcher: the scan of the run directories *)

Lemma tools_Properties_world f w : (tools_Properties f w).2 = w.
Proof.
  destruct f as [f|]; [|done]. unfold tools_Properties.
  destruct (fs w !! f) as [[|[[]|]]|]; done.
Qed.

Lemma tools_Properties_missing f w :
  fs w !! f = None → tools_Properties (Some f) w = (Ok ∅, w).
Proof. intros Hf. unfold tools_Properties. by rewrite Hf. Qed.

(** What [fetch_dir] returns is what the [properties] file of the run
    directory loads to once the parsers have run. *)
Lemma fetch_dir_load run_dir eval_dir parsers w r w' :
  fetch_dir run_dir eval_dir parsers w = (r, w') →
  tools_Properties (Some (os_path_join run_dir ["properties"])) w' = (r, w').
Proof.
  unfold fetch_dir, bind at 1.
  destruct (for_each _ _ w) as [[[]|e] w1] eqn:Hrun.
  - intros Hload.
    pose proof (tools_Properties_world
                  (Some (os_path_join run_dir ["properties"])) w1) as Hw.
    rewrite Hload in Hw. simpl in Hw. by subst.
  - exfalso. revert w Hrun. induction parsers as [|q parsers IH]; intros w; [done|].
    simpl. unfold bind at 1. unfold bind at 1. unfold subprocess_call at 1. simpl.
    unfold ret at 1. apply IH.
Qed.

Lemma py_join_strings sep (ids : list string) :
  py_join sep (VList (VStr <$> ids)) = Ok (str_join sep ids).
Proof.
  assert (mapM (λ x, match x with VStr s => Some s | _ => None end) (VStr <$> ids)
          = Some ids) as Hids.
  { apply mapM_Some_2. by apply Forall2_fmap_l, Forall_Forall2_diag, Forall_true. }
  unfold py_join. cbv beta iota zeta. by rewrite Hids.
Qed.

(** C4, as the code has it.  In a fetch from an experiment directory, a
    run directory whose loaded properties have no [id] ends [__call__]
    with [KeyError] right after its properties were loaded: no entry is
    made for it, no later run directory is scanned, nothing is written.
    A missing [properties] file is such a run: it loads as the empty
    mapping, without an [error] property.  A run whose [id] is a list of
    strings is stored under the joined [id], and the scan goes on. *)
Theorem call_aborts_on_run_without_id merge src_dir eval_dir run_filter parsers
    w sp ed wp c0 done rd rest acc w1 props w2 :
  prepare merge src_dir eval_dir w = (Ok (sp, false, ed), wp) →
  (tools_Properties (Some (os_path_join ed ["properties"])) wp).1 = Ok c0 →
  merge_sort String.le
    (filter (λ q, glob_match (os_path_join src_dir ["runs-*-*"; "*"]) true q = true)
            (map_to_list (fs wp)).*1) = done ++ rd :: rest →
  let total := length (done ++ rd :: rest) in
  (logging_log INFO "Scanning properties from {:d} run directories"
     [VNum (Z.of_nat total)] ;;;
   for_fold (zip (seq 1 (length done)) done) ∅ (scan_run ed parsers total)) wp
    = (Ok acc, w1) →
  (logging_log (if S (length done) mod 100 =? 0 then INFO else DEBUG)
     "Scanning: {:6d}/{:d}"
     [VNum (Z.of_nat (S (length done))); VNum (Z.of_nat total)] ;;;
   fetch_dir rd ed parsers) w1 = (Ok props, w2) →
  props !! "id" = None →
  __call__ merge src_dir eval_dir run_filter parsers w
    = (Raise (KeyError "id"), w2) ∧
  (fs w2 !! os_path_join rd ["properties"] = None → props = ∅) ∧
  (∀ i rd' new_props wa props' wb ids,
     (logging_log (if i mod 100 =? 0 then INFO else DEBUG)
        "Scanning: {:6d}/{:d}" [VNum (Z.of_nat i); VNum (Z.of_nat total)] ;;;
      fetch_dir rd' ed parsers) wa = (Ok props', wb) →
     props' !! "id" = Some (VList (VStr <$> ids)) →
     scan_run ed parsers total (i, rd') new_props wa
       = (Ok (<[str_join "-" ids := VDict props']> new_props), wb)).
Proof.
  intros Hprep Hload Hdirs total Hdone Hrd Hid. split; [|split].
  - unfold __call__, bind at 1, merge_props, bind at 1. rewrite Hprep.
    cbv beta iota zeta delta [fst snd].
    unfold bind at 1.
    pose proof (tools_Properties_world
                  (Some (os_path_join ed ["properties"])) wp) as Hw.
    destruct (tools_Properties _ wp) as [r wq]. simpl in Hload, Hw. subst r wq.
    unfold bind at 1. unfold collect, bind at 1, glob_glob at 1.
    cbv beta iota zeta.
    rewrite Hdirs. fold total.
    unfold total at 2. rewrite zip_seq_app.
    apply bind_Ok_inv in Hdone as ([] & wl & Hlog & Hdone).
    apply bind_Ok_inv in Hrd as ([] & wl' & Hlog' & Hrd).
    erewrite (bind_Ok (logging_log _ _ _)) by exact Hlog.
    rewrite for_fold_app. erewrite bind_Ok by exact Hdone.
    simpl for_fold. unfold scan_run at 1.
    erewrite (bind_Raise (bind _ _)); [done|].
    erewrite (bind_Ok (logging_log _ _ _)) by exact Hlog'.
    erewrite bind_Ok by exact Hrd.
    unfold bind, lift. by rewrite Hid.
  - intros Hmiss. revert Hrd. unfold bind.
    destruct (logging_log _ _ _ w1) as [[[]|e] wl']; [|done].
    intros Hrd%fetch_dir_load. rewrite tools_Properties_missing in Hrd by done.
    by injection Hrd.
  - intros i rd' new_props wa props' wb ids Hscan Hids. unfold scan_run.
    apply bind_Ok_inv in Hscan as ([] & wl' & Hlog' & Hscan).
    erewrite (bind_Ok (logging_log _ _ _)) by exact Hlog'.
    erewrite bind_Ok by exact Hscan.
    unfold bind, lift, ret. rewrite Hids. by rewrite py_join_strings.
Qed.

End FetcherProperties.

(** ** The statements at work on the samples *)

Lemma sample_keeps q : keeps (E:=Sample.env) q.
Proof.
  intros cmd cwd t Hq. simpl. unfold Sample.run_program.
  destruct (String.eqb _ _); simpl.
  - apply lookup_insert_is_Some'. by right.
  - by destruct (String.eqb _ _).
Qed.


(** An entry with its binaries in place but without the marker. *)
Lemma cache_rejects_unmarked_entry_witness :
  ∃ w', CachedRevision.cache (E:=Sample.env) (Sample.revision ["release32"] None)
          "cache" Sample.unmarked_entry = (Raise SystemExit, w') ∧
        fs w' = fs Sample.unmarked_entry.
Proof.
  destruct (cache_rejects_unmarked_entry (E:=Sample.env)
              (Sample.revision ["release32"] None) "cache" Sample.unmarked_entry)
    as (w' & Hrun & Hfs & _).
  - vm_compute. by eexists.
  - vm_compute. reflexivity.
  - exists w'. by split.
Defined.


(** Two calls for the same revision, from an empty cache. *)
Lemma cache_twice_witness :
  ∃ self1 w1 self2 w2,
    CachedRevision.cache (E:=Sample.env) (Sample.revision ["release32"] None)
      "cache" Sample.empty_cache = (Ok self1, w1) ∧
    CachedRevision.cache (E:=Sample.env) (Sample.revision ["release32"] None)
      "cache" w1 = (Ok self2, w2) ∧
    CachedRevision._path self2 = CachedRevision._path self1 ∧
    fs w2 = fs w1.
Proof.
  destruct (CachedRevision.cache (E:=Sample.env) (Sample.revision ["release32"] None)
              "cache" Sample.empty_cache) as [[self1|e] w1] eqn:Hfirst;
    [|vm_compute in Hfirst; discriminate].
  destruct (cache_twice (E:=Sample.env) (Sample.revision ["release32"] None)
              (Sample.revision ["release32"] None) "cache" Sample.empty_cache
              self1 w1 (sample_keeps _) (sample_keeps _) eq_refl eq_refl Hfirst)
    as (self2 & w2 & Hsecond & Hp1 & Hp2 & Hfs & _).
  exists self1, w1, self2, w2. rewrite Hp1, Hp2. repeat split; assumption.
Defined.

(** A build that fails. *)
Lemma build_failure_keeps_entry_witness :
  let self := Sample.revision ["release32"; "--fail"]
                (Some "cache/0a1b2c3d-release32") in
  ∃ w', CachedRevision._compile (E:=Sample.env) self Sample.checked_out
          = (Raise SystemExit, w') ∧
        is_Some (fs w' !! "cache/0a1b2c3d-release32") ∧
        fs w' !! marker "cache/0a1b2c3d-release32" = None.
Proof.
  intros self.
  destruct (build_failure_keeps_entry (E:=Sample.env) self
              "cache/0a1b2c3d-release32" Sample.checked_out)
    as (w' & Hrun & _ & _ & Hkept & Hunmarked).
  - reflexivity.
  - vm_compute. by eexists.
  - vm_compute. discriminate.
  - exists w'. split; [done|]. split.
    + apply Hkept. vm_compute. by eexists.
    + apply Hunmarked. vm_compute. reflexivity.
Defined.

(** C4, as stated, fails.  The first run directory of the sample
    experiment has no [properties] file: [fetch_dir] gives the empty
    mapping, not an entry with an [error], and the fetch ends with
    [KeyError] before the second run directory is scanned.  Where a file
    that does not parse loads as an entry with only an [error] property,
    the fetch ends the same way. *)
Lemma collect_not_tolerant :
  (Fetcher.fetch_dir (E:=Sample.env) "exp/runs-00001-00100/00001" "exp-eval" []
     Sample.experiment).1 = Ok ∅ ∧
  (Fetcher.__call__ (E:=Sample.env) (Some true) "exp" None Ok []
     Sample.experiment).1 = Raise (KeyError "id") ∧
  events (Fetcher.__call__ (E:=Sample.env) (Some true) "exp" None Ok []
            Sample.experiment).2 =
    [Log INFO "Fetching files from exp -> exp-eval" [];
     Log INFO "Fetching from evaluation dir: {}" [VBool false];
     Log INFO "Scanning properties from {:d} run directories" [VNum 2];
     Log DEBUG "Scanning: {:6d}/{:d}" [VNum 1; VNum 2]] ∧
  (Fetcher.fetch_dir (E:=Sample.env_lenient) "exp/runs-00001-00100/00001"
     "exp-eval" [] Sample.experiment_unparsable).1
    = Ok {["error" := VStr "unexplained-unparsable"]} ∧
  (Fetcher.__call__ (E:=Sample.env_lenient) (Some true) "exp" None Ok []
     Sample.experiment_unparsable).1 = Raise (KeyError "id").
Proof. vm_compute. repeat split. Qed.

(** The fetch from the sample experiment ends at its first run
    directory. *)
Lemma call_aborts_on_run_without_id_witness :
  ∃ w2, Fetcher.__call__ (E:=Sample.env) (Some true) "exp" None Ok []
          Sample.experiment = (Raise (KeyError "id"), w2).
Proof.
  eexists. eapply proj1.
  eapply (call_aborts_on_run_without_id (E:=Sample.env) (Some true) "exp" None
            Ok [] Sample.experiment _ _ _ _
            [] "exp/runs-00001-00100/00001" ["exp/runs-00001-00100/00002"]);
    vm_compute; reflexivity.
Defined.

(** C6 fails on a store whose only run has neither [error] nor
    [run_dir]: the run counts as unexplained, yet the fetch ends with
    [KeyError] while formatting its warning; the run is not counted, and
    the destination is neither created nor written. *)
Theorem unexplained_run_without_run_dir_not_persisted :
  let out := Fetcher.__call__ (E:=Sample.env) (Some true) "exp-eval" (Some "out")
               Ok [] Sample.evaluation in
  (Fetcher.merge_props (E:=Sample.env) (Some true) "exp-eval" (Some "out")
     Ok [] Sample.evaluation).1 = Ok ("out", Sample.store_without_run_dir) ∧
  unexplained (VDict {["id" := VList [VStr "d"; VStr "p"; VStr "c1"]]}) = true ∧
  out.1 = Raise (KeyError "run_dir") ∧
  fs out.2 !! "out" = None ∧
  fs out.2 !! "out/properties" = None ∧
  events out.2 =
    [Log INFO "Fetching files from exp-eval -> out" [];
     Log INFO "Fetching from evaluation dir: {}" [VBool true]].
Proof. vm_compute. repeat split. Qed.

(** The same store, through the general statement. *)
Lemma call_raises_on_missing_run_dir_witness :
  ∃ w', Fetcher.__call__ (E:=Sample.env) (Some true) "exp-eval" (Some "out")
          Ok [] Sample.evaluation = (Raise (KeyError "run_dir"), w').
Proof.
  destruct (call_raises_on_missing_run_dir (E:=Sample.env) (Some true) "exp-eval"
              (Some "out") Ok [] Sample.evaluation "out"
              Sample.store_without_run_dir
              (Fetcher.merge_props (E:=Sample.env) (Some true) "exp-eval"
                 (Some "out") Ok [] Sample.evaluation).2)
    as (w' & Hrun & _).
  - vm_compute. reflexivity.
  - unfold Sample.store_without_run_dir.
    intros k v [_ <-]%lookup_singleton_Some. reflexivity.
  - unfold Sample.store_without_run_dir.
    eexists _, _. split; [apply lookup_singleton_eq|]. split; reflexivity.
  - exists w'. exact Hrun.
Defined.

(** A run with an empty [error]. *)
Lemma falsy_error_not_counted_witness :
  Fetcher.check_run (VDict Sample.run_with_empty_error) 0 Sample.evaluation
    = (Ok 0, Sample.evaluation).
Proof.
  eapply proj1.
  apply (falsy_error_not_counted Sample.run_with_empty_error (VStr "") [] 0
           Sample.evaluation); reflexivity.
Defined.

(** * Further properties *)

(** ** The revision cache *)

Lemma dash_free_split a b ra rb :
  dash_free a = true → dash_free b = true →
  (ra = "" ∨ ∃ t, ra = String "-"%char t) →
  (rb = "" ∨ ∃ t, rb = String "-"%char t) →
  a +:+ ra = b +:+ rb → a = b ∧ ra = rb.
Proof.
  revert b. induction a as [|x a IH]; intros [|y b] Ha Hb Hra Hrb Heq.
  - done.
  - exfalso. simpl in Hb. apply andb_true_iff in Hb as [Hy _].
    change ("" +:+ ra) with ra in Heq. rewrite app_cons in Heq.
    destruct Hra as [->|[t ->]]; [done|].
    injection Heq as <- _. done.
  - exfalso. simpl in Ha. apply andb_true_iff in Ha as [Hx _].
    change ("" +:+ rb) with rb in Heq. rewrite app_cons in Heq.
    destruct Hrb as [->|[t ->]]; [done|].
    injection Heq as -> _. done.
  - simpl in Ha, Hb. apply andb_true_iff in Ha as [_ Ha].
    apply andb_true_iff in Hb as [_ Hb].
    rewrite !app_cons in Heq. injection Heq as -> Heq.
    destruct (IH b Ha Hb Hra Hrb Heq) as [-> ->]. done.
Qed.

Lemma concat_cons sep x xs :
  String.concat sep (x :: xs) =
  x +:+ match xs with [] => "" | _ => sep +:+ String.concat sep xs end.
Proof.
  destruct xs as [|y xs]; simpl; [|done].
  induction x as [|c x IH]; [done|]. by rewrite app_cons, <- IH.
Qed.

(** Joining with [-] loses nothing when no part holds a [-]. *)
Lemma join_dash_inj l1 : ∀ l2,
  l1 ≠ [] → l2 ≠ [] →
  Forall (λ s, dash_free s = true) l1 → Forall (λ s, dash_free s = true) l2 →
  str_join "-" l1 = str_join "-" l2 → l1 = l2.
Proof.
  unfold str_join.
  induction l1 as [|x xs IH]; intros [|y ys] Hne1 Hne2 Hf1 Hf2 Heq; try done.
  apply Forall_cons in Hf1 as [Hx Hf1]. apply Forall_cons in Hf2 as [Hy Hf2].
  rewrite !concat_cons in Heq.
  apply dash_free_split in Heq as [-> Htail]; try done.
  - f_equal. destruct xs as [|x' xs], ys as [|y' ys]; try done.
    apply IH; try done. by injection Htail.
  - destruct xs; [by left|right]. by eexists.
  - destruct ys; [by left|right]. by eexists.
Qed.

Section CacheCoverage.
Context `{E : Env}.
Import CachedRevision.

(** X1.  A cache hit: when the entry and its marker exist, [cache] only
    logs that the revision is cached and returns.  Nothing is created,
    run or removed, the tree is as it was, and the revision has the
    entry as its path. *)
Theorem cache_hit self dir w :
  is_Some (fs w !! target self dir) →
  is_Some (fs w !! marker (target self dir)) →
  ∃ self',
    cache self dir w =
      (Ok self',
       {| fs := fs w;
          trace := trace w ++ [(Log INFO (already_cached (target self dir)) [], fs w)] |}) ∧
    _path self' = Some (target self dir) ∧
    global_rev self' = global_rev self ∧
    build_options self' = build_options self.
Proof.
  intros Hp Hm. eexists. split.
  - mrun. fold (target self dir). rewrite (bool_decide_eq_true_2 _ Hp). simpl.
    fold (marker (target self dir)). rewrite (bool_decide_eq_true_2 _ Hm). simpl.
    reflexivity.
  - done.
Qed.





(** X4.  Without a [build.py] in the entry, [_compile] ends the process with
    the message that asks for a merge: no program is run and the tree is
    as it was, so no marker is written. *)
Theorem compile_without_build_py self p w :
  _path self = Some p →
  fs w !! os_path_join p ["build.py"] = None →
  _compile self w =
    (Raise SystemExit,
     {| fs := fs w;
        trace := trace w ++
          [(Log CRITICAL "build.py not found. Please merge with master." [],
            fs w)] |}).
Proof.
  intros Hp Hb. mrun. rewrite Hp. simpl. rewrite Hb.
  by rewrite bool_decide_eq_false_2 by (by intros [??]).
Qed.

Local Arguments CachedRevision._compile : simpl never.
Local Arguments CachedRevision._cleanup : simpl never.



(** A revision [cache] returns is the one it was called on, with the
    entry as its path. *)
Lemma cache_Ok_path self dir w self1 w1 :
  cache self dir w = (Ok self1, w1) →
  self1 = mk (repo self) (build_options self) (local_rev self) (global_rev self)
             (summary self) (Some (target self dir)).
Proof.
  unfold cache. fold (target self dir).
  intros (p0 & w0 & _ & Hc)%bind_Ok_inv.
  apply bind_Ok_inv in Hc as (cached & wa & _ & Hc).
  apply bind_Ok_inv in Hc as ([] & wb & _ & Hret).
  by injection Hret as <- _.
Qed.

(** X5.  A revision that [__init__] returns comes from a repository that is
    a directory and carries the build options it was given.  It has no
    path yet: [get_cached_path], [_compile] and [_cleanup] raise
    [AssertionError] on it and leave the world alone.  Once [cache]
    returned, [get_cached_path] gives the path below the entry, whose
    name is the global revision and the options joined by [-]. *)
Theorem path_is_set_by_cache get_global_rev get_rev_id repo local_rev options
    w self w' :
  __init__ get_global_rev get_rev_id repo local_rev options w = (Ok self, w') →
  fs w !! repo = Some Dir ∧
  build_options self = options ∧
  (∀ rel wa, get_cached_path self rel wa = (Raise AssertionError, wa)) ∧
  (∀ wa, _compile self wa = (Raise AssertionError, wa)) ∧
  (∀ wa, _cleanup self wa = (Raise AssertionError, wa)) ∧
  (∀ dir wa self1 wb rel,
     cache self dir wa = (Ok self1, wb) →
     get_cached_path self1 rel wb =
       (Ok (os_path_join
              (os_path_join dir [str_join "-" (global_rev self :: options)]) rel),
        wb)).
Proof.
  unfold __init__.
  intros (isdir & w0 & Hdir & Hc)%bind_Ok_inv.
  unfold os_path_isdir in Hdir. injection Hdir as <- <-.
  apply bind_Ok_inv in Hc as ([] & w1 & Hcrit & Hc).
  apply bind_Ok_inv in Hc as (grev & w2 & Hg & Hc).
  apply bind_Ok_inv in Hc as (summ & w3 & Hs & Hret).
  injection Hret as <- <-.
  split.
  { destruct (fs w !! repo) as [[|d]|]; try done. }
  split; [done|]. split; [done|]. split; [done|]. split; [done|].
  intros dir wa self1 wb rel ->%cache_Ok_path. done.
Qed.

(** X6.  Among revisions whose global revision and build options hold no
    [-], the cache name determines the global revision and the build
    options: two such revisions share an entry only when they are built
    from the same revision with the same options. *)
Theorem cache_name_injective_without_dashes (k1 k2 : t) :
  dash_free (global_rev k1) = true →
  Forall (λ s, dash_free s = true) (build_options k1) →
  dash_free (global_rev k2) = true →
  Forall (λ s, dash_free s = true) (build_options k2) →
  _get_cached_revision_name k1 = _get_cached_revision_name k2 →
  global_rev k1 = global_rev k2 ∧ build_options k1 = build_options k2.
Proof.
  intros Hr1 Ho1 Hr2 Ho2 Hname. unfold _get_cached_revision_name in Hname.
  apply join_dash_inj in Hname; try done.
  - simpl in Hname. by injection Hname.
  - by constructor.
  - by constructor.
Qed.

End CacheCoverage.

(** ** The fetcher *)



Lemma join_longer p a :
  startswith a "/" = false → a ≠ "" → os_path_join p [a] ≠ p.
Proof.
  intros Ha Hne Heq. rewrite join_rel in Heq by done.
  apply (f_equal String.length) in Heq. rewrite !length_app in Heq.
  destruct a; [done|]. simpl in Heq. lia.
Qed.

Lemma with_dir_lookup p (t : FS) k :
  is_Some (t !! k) → with_dir p t !! k = t !! k.
Proof.
  intros [n Hk]. unfold with_dir. destruct (t !! p) eqn:Hp; [done|].
  apply lookup_insert_ne. intros ->. congruence.
Qed.

Lemma with_dir_present p (t : FS) : is_Some (with_dir p t !! p).
Proof.
  unfold with_dir. destruct (t !! p) eqn:Hp; [by rewrite Hp|].
  by rewrite lookup_insert_eq.
Qed.

Lemma with_dir_again p (t : FS) : is_Some (t !! p) → with_dir p t = t.
Proof. intros [n Hp]. unfold with_dir. by rewrite Hp. Qed.

Section FetcherCoverage.
Context `{E : Env}.
Import Fetcher.

(** X7.  [_check_eval_dir] does nothing when the evaluation directory does
    not exist.  When it exists, the user is asked once, and the answer
    counts after stripping and lower-casing: [o] removes the directory
    and returns, [m] returns and leaves the tree alone, [c] ends the
    process without a message, and everything else ends the process
    with the message [Invalid answer]; only [o] changes the tree. *)
Theorem check_eval_dir_outcomes eval_dir w :
  let answer := str_lower (str_strip (raw_input (question eval_dir))) in
  let out := _check_eval_dir eval_dir w in
  (fs w !! eval_dir = None → out = (Ok (), w)) ∧
  (is_Some (fs w !! eval_dir) →
     events out.2 = events w ++
       Prompt (question eval_dir) (raw_input (question eval_dir)) ::
       (if bool_decide (answer ∈ ["o"; "m"; "c"]) then
          if String.eqb answer "o" then [RemovePath eval_dir] else []
        else [Log CRITICAL ("Invalid answer: " +:+ dquote +:+ answer +:+ dquote) []]) ∧
     out.1 = (if bool_decide (answer ∈ ["o"; "m"]) then Ok () else Raise SystemExit) ∧
     fs out.2 = (if String.eqb answer "o" then remove_tree eval_dir (fs w) else fs w)).
Proof.
  intros answer out. subst out. unfold question in *. split.
  - intros Hnone. unfold _check_eval_dir, bind, os_path_exists. rewrite Hnone.
    rewrite bool_decide_eq_false_2 by apply is_Some_None. reflexivity.
  - intros Hsome. unfold _check_eval_dir, bind, os_path_exists.
    rewrite (bool_decide_eq_true_2 _ Hsome).
    unfold when. fold answer. unfold events.
    destruct (String.eqb_spec answer "o") as [Ho|Ho].
    { rewrite Ho. simpl. unfold tools_remove_path, emit; simpl.
      rewrite !fmap_app. simpl. by rewrite <- app_assoc. }
    destruct (String.eqb_spec answer "m") as [Hm|Hm].
    { rewrite Hm. simpl. unfold emit, ret; simpl. by rewrite !fmap_app. }
    destruct (String.eqb_spec answer "c") as [Hc|Hc].
    { rewrite Hc. simpl. unfold emit, raise; simpl. by rewrite !fmap_app. }
    rewrite bool_decide_eq_false_2 by (rewrite !elem_of_cons, elem_of_nil; tauto).
    rewrite bool_decide_eq_false_2 by (rewrite !elem_of_cons, elem_of_nil; tauto).
    unfold logging_critical, logging_critical_fmt, emit, bind, raise; simpl.
    rewrite !fmap_app. simpl. by rewrite <- app_assoc.
Qed.



(** X9.  A source that is not a directory ends the fetch at once, whatever
    the other arguments: the only thing that happens is the fatal
    message, and the tree is as it was. *)
Theorem fetch_needs_source_directory merge src_dir eval_dir run_filter parsers w :
  fs w !! src_dir ≠ Some Dir →
  __call__ merge src_dir eval_dir run_filter parsers w =
    (Raise SystemExit,
     {| fs := fs w;
        trace := trace w ++
          [(Log CRITICAL (src_dir +:+ " is missing or not a directory") [],
            fs w)] |}).
Proof.
  intros Hdir. unfold __call__, merge_props, prepare.
  unfold bind at 1. unfold bind at 1. unfold bind at 1. unfold bind at 1.
  unfold os_path_isdir at 1.
  destruct (fs w !! src_dir) as [[|d]|]; try done.
Qed.

Lemma scan_run_without_parsers eval_dir total i rd ids (props new_props : pydict) w :
  fs w !! os_path_join rd ["properties"] = Some (File (Some (VDict props))) →
  props !! "id" = Some (VList (VStr <$> ids)) →
  ∃ w', scan_run eval_dir [] total (i, rd) new_props w
          = (Ok (<[str_join "-" ids := VDict props]> new_props), w') ∧
        fs w' = fs w ∧
        ∃ e, events w' = events w ++ [e] ∧ is_log e = true.
Proof.
  intros Hfile Hid. unfold scan_run, fetch_dir.
  unfold logging_log, emit, bind, ret, lift, tools_Properties; simpl.
  rewrite Hfile, Hid, py_join_strings.
  eexists. split; [reflexivity|]. split; [done|].
  eexists. unfold events. simpl. rewrite fmap_app. simpl. done.
Qed.

Lemma scan_loop_without_parsers eval_dir total (t0 : FS)
    (entries : list (string * (list string * pydict))) : ∀ k acc w,
  fs w = t0 →
  Forall (λ e, t0 !! os_path_join e.1 ["properties"]
                 = Some (File (Some (VDict e.2.2))) ∧
               e.2.2 !! "id" = Some (VList (VStr <$> e.2.1))) entries →
  ∃ w' new,
    for_fold (zip (seq k (length entries)) entries.*1) acc
             (scan_run eval_dir [] total) w
      = (Ok (foldl (λ m e, <[str_join "-" e.2.1 := VDict e.2.2]> m) acc entries), w') ∧
    fs w' = t0 ∧
    events w' = events w ++ new ∧
    Forall (λ e, is_log e = true) new ∧
    length new = length entries.
Proof.
  induction entries as [|[rd [ids props]] entries IH]; intros k acc w Hfs Hall.
  - exists w, []. simpl. by rewrite app_nil_r.
  - apply Forall_cons in Hall as [[Hfile Hid] Hall]. simpl in Hfile, Hid.
    simpl for_fold.
    destruct (scan_run_without_parsers eval_dir total k rd ids props acc w)
      as (w1 & Hrun & Hfs1 & e & Hev1 & Hlog); [by rewrite Hfs|done|].
    rewrite (bind_Ok _ _ _ _ _ Hrun).
    destruct (IH (S k) (<[str_join "-" ids := VDict props]> acc) w1)
      as (w' & new & Hloop & Hfs' & Hev & Hlogs & Hlen); [congruence|done|].
    exists w', (e :: new). split; [done|]. split; [done|].
    split; [by rewrite Hev, Hev1, <- app_assoc|].
    split; [by constructor|]. simpl. by rewrite Hlen.
Qed.

Lemma store_of_keys (entries : list (string * (list string * pydict)))
    (acc : pydict) k :
  is_Some (foldl (λ m e, <[str_join "-" e.2.1 := VDict e.2.2]> m) acc entries !! k) ↔
  is_Some (acc !! k) ∨ k ∈ (λ e, str_join "-" e.2.1) <$> entries.
Proof.
  revert acc. induction entries as [|e entries IH]; intros acc; simpl.
  - rewrite elem_of_nil. tauto.
  - rewrite IH, lookup_insert_is_Some', elem_of_cons. split; intros; intuition auto.
Qed.

(** X10.  Scanning an experiment without parsers: when every run directory
    holds a [properties] mapping whose [id] is a list of strings,
    [collect] returns the store that keeps each run under its [id]
    joined by [-] (of two runs with the same [id], the later in sorted
    order wins), the tree is as it was, and nothing happens but log
    messages. *)
Theorem collect_keys_runs_by_id src_dir eval_dir w
    (entries : list (string * (list string * pydict))) :
  merge_sort String.le
    (filter (λ q, glob_match (os_path_join src_dir ["runs-*-*"; "*"]) true q = true)
            (map_to_list (fs w)).*1) = entries.*1 →
  Forall (λ e, fs w !! os_path_join e.1 ["properties"]
                 = Some (File (Some (VDict e.2.2))) ∧
               e.2.2 !! "id" = Some (VList (VStr <$> e.2.1))) entries →
  ∃ w' new,
    collect src_dir eval_dir [] w = (Ok (store_of entries), w') ∧
    fs w' = fs w ∧
    events w' = events w ++ new ∧
    Forall (λ e, is_log e = true) new ∧
    (∀ k, is_Some (store_of entries !! k) ↔
          k ∈ (λ e, str_join "-" e.2.1) <$> entries).
Proof.
  intros Hdirs Hall. unfold collect, bind at 1, glob_glob at 1.
  cbv beta iota zeta. rewrite Hdirs, length_fmap.
  unfold bind at 1, logging_log at 1, emit at 1. cbv beta zeta.
  match goal with |- context [for_fold _ _ _ ?w0] =>
    destruct (scan_loop_without_parsers eval_dir (length entries) (fs w) entries
                1 ∅ w0 eq_refl Hall) as (w' & new & -> & Hfs & Hev & Hlogs & _) end.
  eexists w', (_ :: new). split; [done|]. split; [done|]. split; [|split].
  - rewrite Hev. unfold events. simpl. rewrite fmap_app. simpl.
    by rewrite <- app_assoc.
  - by constructor.
  - intros k. unfold store_of. rewrite store_of_keys, lookup_empty.
    split; [intros [[? ?]|?]; done|auto].
Qed.

Lemma prepare_runs (merge : bool) src_dir eval_dir w sp :
  fs w !! src_dir = Some Dir →
  fs w !! os_path_join src_dir ["properties"] = Some (File (Some (VDict sp))) →
  ∃ w', prepare (Some merge) src_dir eval_dir w
          = (Ok (sp, from_eval_dir src_dir sp, destination src_dir eval_dir), w') ∧
        fs w' = (if merge then fs w
                 else remove_tree (destination src_dir eval_dir) (fs w)).
Proof.
  intros Hdir Hfile. unfold prepare.
  unfold bind at 1, os_path_isdir at 1. rewrite Hdir.
  unfold bind at 1, when at 1. unfold negb, ret at 1.
  unfold bind at 1, tools_Properties at 1. rewrite Hfile.
  fold (from_eval_dir src_dir sp). fold (destination src_dir eval_dir).
  destruct merge;
    unfold tools_remove_path, logging_info, logging_log, emit, bind, ret; simpl;
    by eexists.
Qed.


Lemma check_run_untyped v n w :
  error_typed v = false → check_run v n w = (Raise AttributeError, w).
Proof.
  destruct v as [| | | |l|d]; try done. simpl.
  unfold check_run.
  destruct (d !! "error") as [e|] eqn:He; simpl; [|done].
  destruct e as [|b|z|s|l|d']; simpl; try done.
  - by intros ->%negb_false_iff.
  - by intros ->%negb_false_iff.
  - by destruct l.
  - by intros ->%negb_false_iff.
Qed.

Lemma count_loop_untyped vs : ∀ n w,
  Forall (λ v, error_typed v = true → unexplained v = true → has_run_dir v = true) vs →
  Exists (λ v, error_typed v = false) vs →
  ∃ w', for_fold vs n check_run w = (Raise AttributeError, w') ∧
        only_warnings w w'.
Proof.
  induction vs as [|v vs IH]; intros n w Hok Hex; [by apply Exists_nil in Hex|].
  apply Forall_cons in Hok as [Hv Hok]. simpl. unfold bind.
  destruct (error_typed v) eqn:Hty.
  - apply Exists_cons in Hex as [?|Hex]; [congruence|].
    destruct (unexplained v) eqn:Hu.
    + destruct (check_run_count v n w Hu (Hv eq_refl eq_refl)) as [args ->].
      match goal with |- context [for_fold vs ?m _ ?w0] =>
        destruct (IH m w0 Hok Hex) as (w' & -> & Hw') end.
      exists w'. split; [done|].
      eapply only_warnings_trans; [apply only_warnings_log|done].
    + rewrite check_run_skip by done. by apply IH.
  - rewrite check_run_untyped by done.
    exists w. split; [done|apply only_warnings_refl].
Qed.

Lemma check_run_result v n :
  ∃ r, ∀ u, ∃ u', check_run v n u = (r, u') ∧ fs u' = fs u.
Proof.
  destruct (error_typed v) eqn:Hty.
  - destruct (unexplained v) eqn:Hu.
    + destruct (has_run_dir v) eqn:Hrd.
      * exists (Ok (S n)). intros u.
        destruct (check_run_count v n u Hu Hrd) as [args ->]. by eexists.
      * exists (Raise (KeyError "run_dir")). intros u.
        rewrite check_run_raise by done. by eexists.
    + exists (Ok n). intros u. rewrite check_run_skip by done. by eexists.
  - exists (Raise AttributeError). intros u.
    rewrite check_run_untyped by done. by eexists.
Qed.

Lemma count_loop_result vs : ∀ n,
  ∃ r, ∀ u, ∃ u', for_fold vs n check_run u = (r, u') ∧ fs u' = fs u.
Proof.
  induction vs as [|v vs IH]; intros n.
  - exists (Ok n). intros u. by exists u.
  - destruct (check_run_result v n) as [[m|e] Hv].
    + destruct (IH m) as [r Hr]. exists r. intros u.
      destruct (Hv u) as (u1 & Hrun & Hfs1).
      destruct (Hr u1) as (u2 & Hrest & Hfs2).
      exists u2. simpl. rewrite (bind_Ok _ _ _ _ _ Hrun). split; [done|congruence].
    + exists (Raise e). intros u. destruct (Hv u) as (u1 & Hrun & Hfs1).
      exists u1. simpl. by rewrite (bind_Raise _ _ _ _ _ Hrun).
Qed.

Lemma report_result ed filename (combined : pydict) :
  ∃ r (written : bool), ∀ u, ∃ u',
    report ed filename combined u = (r, u') ∧
    fs u' = (if written
             then <[filename := File (Some (VDict combined))]> (with_dir ed (fs u))
             else fs u).
Proof.
  destruct (count_loop_result (dict_items combined).*2 0) as [[n|e] Hloop].
  - exists (if n =? 0 then Ok () else Raise SystemExit), true. intros u.
    destruct (Hloop u) as (u1 & Hrun & Hfs). unfold report.
    rewrite (bind_Ok _ _ _ _ _ Hrun).
    unfold tools_makedirs, Properties_write, logging_info, logging_log,
      logging_critical_fmt, emit, when, bind, ret, raise; simpl.
    unfold with_dir. rewrite Hfs.
    destruct (n =? 0); simpl; by eexists.
  - exists (Raise e), false. intros u.
    destruct (Hloop u) as (u1 & Hrun & Hfs). unfold report.
    rewrite (bind_Raise _ _ _ _ _ Hrun). by exists u1.
Qed.

Lemma merge_from_eval_dir src_dir eval_dir run_filter parsers u sp sp' c0 :
  fs u !! src_dir = Some Dir →
  fs u !! os_path_join src_dir ["properties"] = Some (File (Some (VDict sp))) →
  from_eval_dir src_dir sp = true →
  run_filter sp = Ok sp' →
  loads (fs u) (os_path_join (destination src_dir eval_dir) ["properties"]) c0 →
  ∃ u', merge_props (Some true) src_dir eval_dir run_filter parsers u
          = (Ok (destination src_dir eval_dir, dict_update c0 sp'), u') ∧
        fs u' = fs u.
Proof.
  intros Hdir Hfile Heval Hfilter Hload.
  destruct (prepare_runs true src_dir eval_dir u sp Hdir Hfile) as (u' & Hprep & Hfs).
  exists u'. split; [|done].
  unfold merge_props. rewrite (bind_Ok _ _ _ _ _ Hprep).
  cbv beta iota zeta delta [fst snd]. rewrite Heval.
  rewrite (bind_Ok _ _ _ c0 u').
  - unfold bind, lift, ret. by rewrite Hfilter.
  - unfold tools_Properties. rewrite Hfs.
    destruct Hload as [[-> ->]| ->]; done.
Qed.

(** X12.  Merging from an evaluation directory is idempotent: a second
    fetch with the same arguments ends as the first did, with the same
    result or the same exception, and leaves the tree as the first
    left it. *)
Theorem refetch_changes_nothing src_dir eval_dir run_filter parsers w sp sp' c0 :
  let filename := os_path_join (destination src_dir eval_dir) ["properties"] in
  fs w !! src_dir = Some Dir →
  fs w !! os_path_join src_dir ["properties"] = Some (File (Some (VDict sp))) →
  from_eval_dir src_dir sp = true →
  run_filter sp = Ok sp' →
  loads (fs w) filename c0 →
  filename ≠ src_dir →
  filename ≠ os_path_join src_dir ["properties"] →
  ∀ r w1,
    __call__ (Some true) src_dir eval_dir run_filter parsers w = (r, w1) →
    ∃ w2, __call__ (Some true) src_dir eval_dir run_filter parsers w1 = (r, w2) ∧
          fs w2 = fs w1.
Proof.
  intros filename Hdir Hfile Heval Hfilter Hload Hne1 Hne2 r w1.
  set (ed := destination src_dir eval_dir) in *.
  set (combined := dict_update c0 sp').
  destruct (report_result ed filename combined) as (r0 & written & Hreport).
  assert (∀ u c, fs u !! src_dir = Some Dir →
            fs u !! os_path_join src_dir ["properties"] = Some (File (Some (VDict sp))) →
            loads (fs u) filename c → dict_update c sp' = combined →
            ∃ u', __call__ (Some true) src_dir eval_dir run_filter parsers u = (r0, u') ∧
                  fs u' = (if written
                           then <[filename := File (Some (VDict combined))]>
                                  (with_dir ed (fs u))
                           else fs u)) as Hcall.
  { intros u c Hd Hf Hl Hc.
    destruct (merge_from_eval_dir src_dir eval_dir run_filter parsers u sp sp' c
                Hd Hf Heval Hfilter Hl) as (um & Hmerge & Hfs).
    unfold __call__. rewrite (bind_Ok _ _ _ _ _ Hmerge).
    cbv beta iota zeta delta [fst snd]. fold ed. fold filename. rewrite Hc.
    destruct (Hreport um) as (u' & -> & Hfs'). exists u'. split; [done|].
    by rewrite Hfs', Hfs. }
  destruct (Hcall w c0 Hdir Hfile Hload eq_refl) as (w1' & Hfirst & Hfs1).
  rewrite Hfirst. intros [= <- <-].
  destruct written.
  - destruct (Hcall w1' combined) as (w2 & Hsecond & Hfs2).
    + rewrite Hfs1, lookup_insert_ne by done.
      rewrite with_dir_lookup by (by rewrite Hdir). done.
    + rewrite Hfs1, lookup_insert_ne by done.
      rewrite with_dir_lookup by (by rewrite Hfile). done.
    + right. by rewrite Hfs1, lookup_insert_eq.
    + unfold combined, dict_update.
      by rewrite (assoc_L (∪)), (idemp_L (∪)).
    + exists w2. split; [done|]. rewrite Hfs2, Hfs1.
      rewrite with_dir_again.
      * by rewrite insert_insert_eq.
      * apply lookup_insert_is_Some'. right. apply with_dir_present.
  - destruct (Hcall w1' c0) as (w2 & Hsecond & Hfs2); try done.
    + by rewrite Hfs1.
    + by rewrite Hfs1.
    + by rewrite Hfs1.
    + by exists w2.
Qed.

(** X14.  A run whose [error] is a true value that is not a string, or a
    run that is not a mapping, makes [__call__] raise [AttributeError]
    while it counts the unexplained errors: between the merge and the
    exception there are only warnings, and the merged store is not
    written. *)
Theorem call_raises_on_untyped_error merge src_dir eval_dir run_filter parsers
    w ed combined w1 :
  merge_props merge src_dir eval_dir run_filter parsers w = (Ok (ed, combined), w1) →
  (∀ k v, combined !! k = Some v →
          error_typed v = true → unexplained v = true → has_run_dir v = true) →
  (∃ k v, combined !! k = Some v ∧ error_typed v = false) →
  ∃ w', __call__ merge src_dir eval_dir run_filter parsers w
          = (Raise AttributeError, w') ∧
        only_warnings w1 w'.
Proof.
  intros Hmerge Hok (k & v & Hk & Hbad).
  unfold __call__, bind at 1. rewrite Hmerge.
  cbv beta iota zeta delta [fst snd].
  unfold report, bind at 1.
  destruct (count_loop_untyped (dict_items combined).*2 0 w1) as (w' & -> & Hw').
  - apply Forall_forall. intros v' [k' Hk']%dict_values_lookup. eauto.
  - apply Exists_exists. exists v. split; [|done]. apply dict_values_lookup. eauto.
  - by exists w'.
Qed.

End FetcherCoverage.

(** ** The default parser *)

Section ParserProperties.
Import DefaultParser.

(** X15.  Output on [run.err] or on [driver.err] marks the run: the check
    sets [error] to its own unexplained-error value, over any error
    that was there, and leaves all other properties alone.  The fetcher
    then counts the run as an unexplained error. *)
Theorem stderr_output_is_counted content (props : pydict) run_dir n w :
  content ≠ "" →
  props !! "run_dir" = Some run_dir →
  let run := check_stderr_output content props in
  let driver := check_driver_stderr_output content props in
  run !! "error" = Some (VStr "unexplained-error:output-to-run-err") ∧
  driver !! "error" = Some (VStr "unexplained-error:output-to-driver-err") ∧
  (∀ k, k ≠ "error" → run !! k = props !! k ∧ driver !! k = props !! k) ∧
  (∃ args, Fetcher.check_run (VDict run) n w =
     (Ok (S n),
      {| fs := fs w;
         trace := trace w ++
           [(Log WARNING "Unexplained error in {props[run_dir]}: {error}" args,
             fs w)] |})) ∧
  (∃ args, Fetcher.check_run (VDict driver) n w =
     (Ok (S n),
      {| fs := fs w;
         trace := trace w ++
           [(Log WARNING "Unexplained error in {props[run_dir]}: {error}" args,
             fs w)] |})).
Proof.
  intros Hcontent Hrd run driver. subst run driver.
  unfold check_stderr_output, check_driver_stderr_output.
  rewrite (proj2 (String.eqb_neq _ _) Hcontent).
  cbv beta iota delta [negb].
  split; [apply lookup_insert_eq|]. split; [apply lookup_insert_eq|].
  split; [intros k Hk; by rewrite !lookup_insert_ne|].
  split; apply check_run_count;
    unfold unexplained, has_run_dir;
    rewrite ?lookup_insert_eq, ?lookup_insert_ne, ?Hrd by done; done.
Qed.

(** X16.  [check_log_size] always records the size in KiB, rounded down.
    It flags the run exactly when the size is at least 104858624 bytes,
    that is 100 MiB and 1 KiB: a smaller log leaves [error] as it was,
    a larger one sets an [error] that counts as unexplained.  No other
    property changes. *)
Theorem log_size_threshold getsizeof content (props : pydict) :
  let size := getsizeof content in
  let props' := check_log_size getsizeof content props in
  props' !! "log_size_in_kb" = Some (VNum (size `div` 1024)) ∧
  (∀ k, k ≠ "error" → k ≠ "log_size_in_kb" → props' !! k = props !! k) ∧
  ((size < 104858624)%Z → props' !! "error" = props !! "error") ∧
  ((104858624 ≤ size)%Z →
     ∃ msg, props' !! "error" = Some (VStr msg) ∧
            startswith msg "unexplained" = true ∧
            unexplained (VDict props') = true).
Proof.
  intros size props'. subst props'. unfold check_log_size. fold size.
  unfold MAX_LOG_SIZE_IN_KB.
  destruct (Z.gtb_spec (size `div` 1024) (100 * 1024)) as [Hbig|Hsmall].
  - split; [by rewrite lookup_insert_ne, lookup_insert_eq|].
    split; [intros k ??; by rewrite !lookup_insert_ne|].
    split; [intros ?; exfalso;
            pose proof (Z.mul_div_le size 1024 eq_refl); lia|].
    intros _. eexists. split; [apply lookup_insert_eq|]. split; [done|].
    simpl. by rewrite lookup_insert_eq.
  - split; [by rewrite lookup_insert_eq|].
    split; [intros k ??; by rewrite !lookup_insert_ne|].
    split; [intros _; by rewrite lookup_insert_ne|].
    intros ?. exfalso.
    pose proof (Z.div_le_lower_bound size 1024 102401 eq_refl). lia.
Qed.

End ParserProperties.

(** ** The scatter plot *)

Section ScatterProperties.
Import ScatterPlotReport.

Lemma fill_category_configured configs attribute get_category item acc :
  well_configured configs item →
  fill_category configs attribute get_category item acc =
  Returns (if has_value attribute item
           then <[get_category item.2.1 item.2.2 :=
                    default [] (acc !! get_category item.2.1 item.2.2) ++
                    [values attribute item]]> acc
           else acc).
Proof.
  destruct item as [[domain problem] [run1 run2]].
  intros (c1 & c2 & H0 & H1 & Hc1 & Hc2). simpl in *.
  unfold fill_category, getitem, index, has_value, values. simpl.
  rewrite Hc1, H0, Hc2, H1. simpl. rewrite !String.eqb_refl. simpl.
  by destruct (default VNone (run1 !! attribute)),
              (default VNone (run2 !! attribute)).
Qed.

Lemma fill_category_checks configs attribute get_category item acc m :
  fill_category configs attribute get_category item acc = Returns m →
  well_configured configs item.
Proof.
  destruct item as [[domain problem] [run1 run2]].
  unfold fill_category, getitem, index, well_configured. simpl.
  destruct (run1 !! "config") as [config1|]; [|done].
  destruct (configs !! 0) as [c1|]; [|done].
  destruct (eq_str config1 c1) eqn:E1; [|done].
  destruct (run2 !! "config") as [config2|]; [|done].
  destruct (configs !! 1) as [c2|]; [|done].
  destruct (eq_str config2 c2) eqn:E2; [|done].
  intros _. exists c1, c2.
  destruct config1; try done. destruct config2; try done.
  simpl in *. apply String.eqb_eq in E1, E2. by subst.
Qed.

Lemma coordinates_of_cons attribute get_category item rest c :
  coordinates_of attribute get_category (item :: rest) c =
  (if decide (has_value attribute item = true ∧
              get_category item.2.1 item.2.2 = c)
   then [values attribute item] else []) ++
  coordinates_of attribute get_category rest c.
Proof.
  unfold coordinates_of. rewrite filter_cons.
  by destruct (decide _).
Qed.

Lemma fill_from_groups configs attribute get_category problem_runs acc :
  Forall (well_configured configs) problem_runs →
  ∃ m, fill_from configs attribute get_category problem_runs acc = Returns m ∧
       ∀ c, m !! c =
            match coordinates_of attribute get_category problem_runs c with
            | [] => acc !! c
            | l => Some (default [] (acc !! c) ++ l)
            end.
Proof.
  intros Hall. revert acc.
  induction Hall as [|item rest Hitem _ IH]; intros acc.
  { exists acc. done. }
  simpl. rewrite (fill_category_configured _ _ _ _ _ Hitem).
  match goal with |- context [fill_from _ _ _ rest ?a] =>
    destruct (IH a) as (m & -> & Hm) end.
  exists m. split; [done|]. intros c. rewrite Hm, coordinates_of_cons.
  destruct (has_value attribute item) eqn:Hv.
  - destruct (decide (get_category item.2.1 item.2.2 = c)) as [->|Hne].
    + rewrite decide_True by done. rewrite lookup_insert_eq. simpl.
      destruct (coordinates_of _ _ rest _); [done|].
      simpl. by rewrite <- app_assoc.
    + rewrite decide_False by (by intros [_ ?]).
      rewrite lookup_insert_ne by done.
      done.
  - rewrite decide_False by (by intros [? _]). done.
Qed.

Lemma fill_from_checks configs attribute get_category problem_runs acc m :
  fill_from configs attribute get_category problem_runs acc = Returns m →
  Forall (well_configured configs) problem_runs.
Proof.
  revert acc. induction problem_runs as [|item rest IH]; intros acc; [done|].
  simpl.
  destruct (fill_category _ _ _ item acc) as [acc'|] eqn:Hitem; [|done].
  intros Hrest. constructor; eauto using fill_category_checks.
Qed.

Lemma zip_columns {A B} (l : list (A * B)) : zip (l.*1) (l.*2) = l.
Proof. induction l as [|[] l IH]; simpl; by f_equal. Qed.

Lemma category_points_shown {A} (coords : list (option A * option A)) mv :
  coords ≠ [] →
  category_points true coords mv =
  Returns (default mv <$> coords.*1, default mv <$> coords.*2).
Proof.
  intros Hne. unfold category_points, zip_star, _handle_none_values.
  destruct coords as [|xy coords]; [done|].
  cbn [unpack2]. rewrite !length_fmap, Nat.eqb_refl. done.
Qed.

Lemma category_points_hidden {A} (coords : list (option A * option A)) mv :
  category_points false coords mv =
  match complete coords with
  | [] => Raises ValueError
  | points => Returns (points.*1, points.*2)
  end.
Proof.
  unfold category_points, zip_star, _handle_none_values.
  destruct coords as [|xy coords]; [done|].
  cbn [unpack2]. rewrite !length_fmap, Nat.eqb_refl. cbn [negb].
  rewrite zip_columns. fold (complete (xy :: coords)).
  by destruct (complete (xy :: coords)).
Qed.

(** X17.  When the runs of every problem belong to the two configurations
    of the report, [_fill_categories] returns, and a category maps to
    the value pairs of its problems that have at least one value, in
    the order of the problems; a category without such a problem is not
    a key. *)
Theorem fill_categories_groups configs attribute get_category problem_runs :
  Forall (well_configured configs) problem_runs →
  ∃ categories,
    _fill_categories configs attribute get_category problem_runs =
      Returns categories ∧
    ∀ c, categories !! c =
         match coordinates_of attribute get_category problem_runs c with
         | [] => None
         | coords => Some coords
         end.
Proof.
  intros Hall.
  destruct (fill_from_groups configs attribute get_category problem_runs ∅ Hall)
    as (m & Hm & Hlook).
  exists m. split; [done|]. intros c. rewrite Hlook, lookup_empty. done.
Qed.

(** X18.  When [_fill_categories] returns, every pair of runs was checked:
    the first run belongs to the first configuration and the second to
    the second.  No category is empty and no coordinate is a pair of
    two missing values. *)
Theorem fill_categories_checks_configs configs attribute get_category
    problem_runs categories :
  _fill_categories configs attribute get_category problem_runs =
    Returns categories →
  Forall (well_configured configs) problem_runs ∧
  ∀ c coords, categories !! c = Some coords →
    coords ≠ [] ∧
    Forall (λ xy, xy ≠ (VNone, VNone)) coords.
Proof.
  intros Hfill. pose proof (fill_from_checks _ _ _ _ _ _ Hfill) as Hall.
  split; [done|]. intros c coords Hc.
  destruct (fill_from_groups configs attribute get_category problem_runs ∅ Hall)
    as (m & Hm & Hlook).
  unfold _fill_categories in Hfill. rewrite Hfill in Hm.
  injection Hm as <-. rewrite Hlook, lookup_empty in Hc.
  assert (coords = coordinates_of attribute get_category problem_runs c)
    as -> by (destruct (coordinates_of _ _ _ _); naive_solver).
  split; [by destruct (coordinates_of _ _ _ _)|].
  unfold coordinates_of. apply Forall_fmap, Forall_forall.
  intros item [[Hv _] _]%list_elem_of_filter. simpl.
  unfold has_value in Hv. intros Heq. by rewrite Heq in Hv.
Qed.

(** X19.  With [show_missing], the two unpackings of [_plot] succeed on
    every category [_fill_categories] made: each problem of the
    category gives one point, and a missing value is drawn at
    [missing_val]. *)
Theorem plot_shows_every_problem configs attribute get_category problem_runs
    categories c coords missing_val :
  _fill_categories configs attribute get_category problem_runs =
    Returns categories →
  categories !! c = Some coords →
  ∃ X Y,
    category_points true (as_coordinate <$> coords) missing_val =
      Returns (X, Y) ∧
    length X = length coords ∧ length Y = length coords ∧
    ∀ i x y, coords !! i = Some (x, y) →
      X !! i = Some (default missing_val (as_option x)) ∧
      Y !! i = Some (default missing_val (as_option y)).
Proof.
  intros Hfill Hc.
  assert (coords ≠ []) as Hne.
  { pose proof (fill_from_checks _ _ _ _ _ _ Hfill) as Hall.
    destruct (fill_from_groups configs attribute get_category problem_runs ∅
                Hall) as (m & Hm & Hlook).
    unfold _fill_categories in Hfill. rewrite Hfill in Hm.
    injection Hm as <-. rewrite Hlook, lookup_empty in Hc.
    destruct (coordinates_of _ _ _ _); naive_solver. }
  eexists _, _. split.
  { apply category_points_shown. by destruct coords. }
  rewrite !length_fmap. split; [done|]. split; [done|].
  intros i x y Hi. rewrite !list_lookup_fmap, Hi. done.
Qed.

(** X20.  Without [show_missing], the points of a category are its pairs
    without a missing value, in order.  When there is no such pair the
    starred [zip] gives nothing to unpack and [ValueError] is raised. *)
Theorem plot_hides_incomplete_pairs {A} (coords : list (option A * option A))
    missing_val :
  category_points false coords missing_val =
    match complete coords with
    | [] => Raises ValueError
    | points => Returns (points.*1, points.*2)
    end ∧
  (∀ xy, xy ∈ complete coords ↔ (Some xy.1, Some xy.2) ∈ coords) ∧
  (Forall (λ xy, xy.1 = None ∨ xy.2 = None) coords ↔ complete coords = []).
Proof.
  split; [apply category_points_hidden|]. split.
  - intros [x y]. unfold complete. rewrite list_elem_of_omap. simpl. split.
    + intros ([[a|] [b|]] & Hin & Heq); naive_solver.
    + intros Hin. by exists (Some x, Some y).
  - unfold complete. induction coords as [|[[a|] [b|]] coords IH]; simpl.
    + done.
    + split; [|done]. intros [[?|?] _]%Forall_cons; done.
    + rewrite Forall_cons, IH. simpl. intuition auto.
    + rewrite Forall_cons, IH. simpl. intuition auto.
    + rewrite Forall_cons, IH. simpl. intuition auto.
Qed.

(** X21.  Without [show_missing], a category in which no problem has both
    values makes [_plot] raise [ValueError]: [_fill_categories] keeps
    the category, since a problem with one value is kept, and the
    unpacking of its points fails. *)
Theorem plot_fails_on_category_without_complete_pair configs attribute
    get_category problem_runs item missing_val :
  Forall (well_configured configs) problem_runs →
  item ∈ problem_runs →
  has_value attribute item = true →
  (∀ other, other ∈ problem_runs →
     get_category other.2.1 other.2.2 = get_category item.2.1 item.2.2 →
     (values attribute other).1 = VNone ∨ (values attribute other).2 = VNone) →
  ∃ categories coords,
    _fill_categories configs attribute get_category problem_runs =
      Returns categories ∧
    categories !! get_category item.2.1 item.2.2 = Some coords ∧
    category_points false (as_coordinate <$> coords) missing_val =
      Raises ValueError.
Proof.
  intros Hall Hitem Hv Hmissing.
  destruct (fill_from_groups configs attribute get_category problem_runs ∅ Hall)
    as (m & Hm & Hlook).
  set (c := get_category item.2.1 item.2.2) in *.
  exists m, (coordinates_of attribute get_category problem_runs c).
  split; [done|]. split.
  - rewrite Hlook, lookup_empty.
    assert (values attribute item ∈
              coordinates_of attribute get_category problem_runs c) as Hin.
    { unfold coordinates_of. apply list_elem_of_fmap_2.
      by apply list_elem_of_filter. }
    destruct (coordinates_of _ _ _ _); [by apply elem_of_nil in Hin|done].
  - rewrite category_points_hidden.
    assert (complete (as_coordinate <$>
                        coordinates_of attribute get_category problem_runs c)
            = []) as ->; [|done].
    apply elem_of_nil_inv. intros [x y] Hin.
    apply list_elem_of_omap in Hin as (xy & Hxy & Heq).
    apply list_elem_of_fmap in Hxy as (v & -> & Hv').
    apply list_elem_of_fmap in Hv' as (other & -> & Hother).
    apply list_elem_of_filter in Hother as [[_ Hcat] Hother].
    destruct (Hmissing other Hother Hcat) as [Hnone|Hnone];
      unfold as_coordinate in Heq; rewrite Hnone in Heq; simpl in Heq.
    + done.
    + by destruct (as_option _).
Qed.

End ScatterProperties.

(** ** Instances of the further properties *)

Section CacheInstances.
Import CachedRevision.

(** A built and marked entry is a hit. *)
Lemma cache_hit_witness :
  ∃ self',
    cache (E:=Sample.env) (Sample.revision ["release32"] None) "cache"
      Cases.built_entry =
      (Ok self',
       {| fs := fs Cases.built_entry;
          trace := [(Log INFO (already_cached "cache/0a1b2c3d-release32") [],
                     fs Cases.built_entry)] |}) ∧
    _path self' = Some "cache/0a1b2c3d-release32".
Proof.
  destruct (cache_hit (E:=Sample.env) (Sample.revision ["release32"] None)
              "cache" Cases.built_entry) as (self' & Hrun & Hpath & _).
  - vm_compute. eexists. reflexivity.
  - vm_compute. eexists. reflexivity.
  - exists self'. split; [exact Hrun|exact Hpath].
Defined.

(** An entry without [build.py]. *)
Lemma compile_without_build_py_witness :
  (_compile (E:=Sample.env)
     (Sample.revision ["release32"] (Some "cache/0a1b2c3d-release32"))
     Sample.unmarked_entry).1 = Raise SystemExit.
Proof.
  rewrite (compile_without_build_py (E:=Sample.env)
             (Sample.revision ["release32"] (Some "cache/0a1b2c3d-release32"))
             "cache/0a1b2c3d-release32" Sample.unmarked_entry).
  - reflexivity.
  - reflexivity.
  - vm_compute. reflexivity.
Defined.

(** A new revision of the sample repository has no path. *)
Lemma path_is_set_by_cache_witness :
  get_cached_path (Sample.revision ["release32"] None) ["build.py"]
    Sample.empty_cache = (Raise AssertionError, Sample.empty_cache).
Proof.
  destruct (path_is_set_by_cache (E:=Sample.env) Cases.get_global_rev
              Cases.get_rev_id "repo" "tip" ["release32"] Sample.empty_cache
              (Sample.revision ["release32"] None) Sample.empty_cache)
    as (_ & _ & Hpath & _).
  - vm_compute. reflexivity.
  - apply Hpath.
Defined.

(** Two revisions with the same cache name, from different clones. *)
Lemma cache_name_injective_without_dashes_witness :
  global_rev (mk "repo" ["release32"] "tip" "0a1b2c3d" "0a1b2c3d tip" None) =
  global_rev (mk "clone" ["release32"] "default" "0a1b2c3d" "0a1b2c3d" None).
Proof.
  eapply proj1.
  apply (cache_name_injective_without_dashes
           (mk "repo" ["release32"] "tip" "0a1b2c3d" "0a1b2c3d tip" None)
           (mk "clone" ["release32"] "default" "0a1b2c3d" "0a1b2c3d" None)).
  - reflexivity.
  - repeat constructor.
  - reflexivity.
  - repeat constructor.
  - reflexivity.
Defined.


End CacheInstances.

Section FetcherInstances.
Import Fetcher.

(** A source directory that does not exist. *)
Lemma fetch_needs_source_directory_witness :
  (__call__ (E:=Sample.env) None "missing" None Ok [] Sample.evaluation).1
  = Raise SystemExit.
Proof.
  rewrite (fetch_needs_source_directory (E:=Sample.env) None "missing" None Ok []
             Sample.evaluation).
  - reflexivity.
  - vm_compute. discriminate.
Defined.

(** A run whose [error] is the number 1. *)
Lemma call_raises_on_untyped_error_witness :
  ∃ w', __call__ (E:=Sample.env) (Some true) "bad-eval" (Some "out") Ok []
          Cases.numeric_error_evaluation = (Raise AttributeError, w').
Proof.
  destruct (call_raises_on_untyped_error (E:=Sample.env) (Some true) "bad-eval"
              (Some "out") Ok [] Cases.numeric_error_evaluation "out"
              Cases.numeric_error_store
              (merge_props (E:=Sample.env) (Some true) "bad-eval"
                 (Some "out") Ok [] Cases.numeric_error_evaluation).2)
    as (w' & Hrun & _).
  - vm_compute. reflexivity.
  - unfold Cases.numeric_error_store.
    intros k v [_ <-]%lookup_singleton_Some. vm_compute. discriminate.
  - unfold Cases.numeric_error_store.
    eexists _, _. split; [apply lookup_singleton_eq|]. reflexivity.
  - exists w'. exact Hrun.
Defined.


(** Merging twice from a finished evaluation. *)
Lemma refetch_changes_nothing_witness :
  let out := __call__ (E:=Sample.env) (Some true) "done-eval" (Some "out") Ok []
               Cases.finished_evaluation in
  ∃ w2, __call__ (E:=Sample.env) (Some true) "done-eval" (Some "out") Ok [] out.2
          = (out.1, w2) ∧
        fs w2 = fs out.2.
Proof.
  intros out.
  apply (refetch_changes_nothing (E:=Sample.env) "done-eval" (Some "out") Ok []
           Cases.finished_evaluation Cases.finished_store Cases.finished_store ∅).
  - vm_compute. reflexivity.
  - vm_compute. reflexivity.
  - vm_compute. reflexivity.
  - reflexivity.
  - left. split; vm_compute; reflexivity.
  - vm_compute. discriminate.
  - vm_compute. discriminate.
  - subst out. apply surjective_pairing.
Defined.

(** An experiment with two parsed runs. *)
Lemma collect_keys_runs_by_id_witness :
  ∃ w', collect (E:=Sample.env) "exp" "exp-eval" [] Cases.experiment
          = (Ok (store_of Cases.experiment_runs), w') ∧
        fs w' = fs Cases.experiment.
Proof.
  destruct (collect_keys_runs_by_id (E:=Sample.env) "exp" "exp-eval"
              Cases.experiment Cases.experiment_runs)
    as (w' & new & Hrun & Hfs & _).
  - vm_compute. reflexivity.
  - repeat constructor; vm_compute; reflexivity.
  - exists w'. split; [exact Hrun|exact Hfs].
Defined.


End FetcherInstances.

Section ParserInstances.
Import DefaultParser.

(** Output on [run.err] of a run with an empty [error]. *)
Lemma stderr_output_is_counted_witness :
  check_stderr_output "Traceback" Sample.run_with_empty_error !! "error"
  = Some (VStr "unexplained-error:output-to-run-err").
Proof.
  eapply proj1.
  apply (stderr_output_is_counted "Traceback" Sample.run_with_empty_error
           (VStr "runs-00001-00100/00001") 0 Sample.evaluation).
  - discriminate.
  - vm_compute. reflexivity.
Defined.

End ParserInstances.

Section ScatterInstances.
Import ScatterPlotReport.

(** Three problems in the default category. *)
Lemma fill_categories_groups_witness :
  ∃ categories,
    _fill_categories ["c1"; "c2"] "expansions" Cases.one_category
      Cases.problem_runs = Returns categories ∧
    categories !! None =
      Some [(VNum 10, VNum 20); (VNum 30, VNone)].
Proof.
  destruct (fill_categories_groups ["c1"; "c2"] "expansions" Cases.one_category
              Cases.problem_runs) as (categories & Hfill & Hlook).
  - repeat constructor; exists "c1", "c2"; vm_compute; repeat split.
  - exists categories. split; [exact Hfill|]. rewrite Hlook.
    vm_compute. reflexivity.
Defined.

(** The same problems, read back from the result. *)
Lemma fill_categories_checks_configs_witness :
  Forall (well_configured ["c1"; "c2"]) Cases.problem_runs.
Proof.
  eapply proj1.
  apply (fill_categories_checks_configs ["c1"; "c2"] "expansions"
           Cases.one_category Cases.problem_runs
           {[None := [(VNum 10, VNum 20); (VNum 30, VNone)]]}).
  vm_compute. reflexivity.
Defined.

(** The points of the default category with missing values shown. *)
Lemma plot_shows_every_problem_witness :
  ∃ X Y,
    category_points true
      (as_coordinate <$> [(VNum 10, VNum 20); (VNum 30, VNone)]) (VNum 100)
      = Returns (X, Y) ∧
    length X = 2 ∧ length Y = 2.
Proof.
  destruct (plot_shows_every_problem ["c1"; "c2"] "expansions"
              Cases.one_category Cases.problem_runs
              {[None := [(VNum 10, VNum 20); (VNum 30, VNone)]]}
              None [(VNum 10, VNum 20); (VNum 30, VNone)] (VNum 100))
    as (X & Y & Hplot & HX & HY & _).
  - vm_compute. reflexivity.
  - vm_compute. reflexivity.
  - exists X, Y. split; [exact Hplot|]. split; [exact HX|exact HY].
Defined.

(** A category whose only problem has one value. *)
Lemma plot_fails_on_category_without_complete_pair_witness :
  ∃ categories coords,
    _fill_categories ["c1"; "c2"] "expansions" Cases.one_category
      Cases.half_solved = Returns categories ∧
    categories !! None = Some coords ∧
    category_points false (as_coordinate <$> coords) (VNum 100)
      = Raises ValueError.
Proof.
  apply (plot_fails_on_category_without_complete_pair ["c1"; "c2"] "expansions"
           Cases.one_category Cases.half_solved
           (("d", "p2"), (Cases.run "c1" (Some 30%Z), Cases.run "c2" None))
           (VNum 100)).
  - repeat constructor; exists "c1", "c2"; vm_compute; repeat split.
  - apply list_elem_of_singleton. reflexivity.
  - vm_compute. reflexivity.
  - intros other ->%list_elem_of_singleton _. right. vm_compute. reflexivity.
Defined.

End ScatterInstances.
